(** * ClimaCode: the record parser and per-state aggregation of [climate.c]

    A shallow embedding of [src/climate.c] and the properties of its
    tokenizer, of the state table and of the running statistics.

    Platform conventions (the C standard leaves them open; they are those of
    x86-64 Linux with glibc, where the program is built with [make]):
    - [int] is 32 bits, [long], [unsigned long] and [time_t] are 64 bits;
    - [double] is IEEE 754 binary64, evaluated in double precision;
    - [long double] is the x87 extended format (64-bit significand);
    - [atoi s] is [(int) strtol (s, NULL, 10)], as glibc defines it;
    - [strtod] rounds to nearest, ties to even.
    [malloc] is taken to succeed, and the byte [code[2]] of a fresh
    [climate_info], which [create_state] never writes, is taken to be NUL, so
    that [code] is the C string of the two characters copied by [strncpy]. *)

From Stdlib Require Import ZArith String Ascii Bool Lia List.
From Stdlib Require Import Floats.SpecFloat.
Import ListNotations.

#[local] Open Scope string_scope.
#[local] Open Scope list_scope.
#[local] Open Scope Z_scope.

(** ** Machine integers *)

Module Int.

Definition INT_MIN : Z := - 2 ^ 31.
Definition INT_MAX : Z := 2 ^ 31 - 1.
Definition LONG_MIN : Z := - 2 ^ 63.
Definition LONG_MAX : Z := 2 ^ 63 - 1.
Definition ULONG_MODULUS : Z := 2 ^ 64.

(** Conversion of a [long] to [int]: the low 32 bits, read as signed. *)
Definition to_int (z : Z) : Z := (z + 2 ^ 31) mod 2 ^ 32 - 2 ^ 31.

(** Addition on [unsigned long]; an [int] operand is converted first, which
    the reduction modulo 2^64 of the sum accounts for. *)
Definition ulong_add (a b : Z) : Z := (a + b) mod ULONG_MODULUS.

(** Saturation of [strtol] on overflow. *)
Definition clamp_long (z : Z) : Z := Z.max LONG_MIN (Z.min LONG_MAX z).

(** Integer division of C: the quotient is truncated toward zero. *)
Definition div (a b : Z) : Z := Z.quot a b.

Definition in_int_range (z : Z) : Prop := INT_MIN <= z <= INT_MAX.

End Int.

(** ** Floating point: [double] and [long double] *)

Module FP.

Definition double := spec_float.
Definition ldouble := spec_float.

Definition dprec : Z := 53.
Definition demax : Z := 1024.
Definition lprec : Z := 64.
Definition lemax : Z := 16384.

Definition dmul : double -> double -> double := SFmul dprec demax.
Definition dsub : double -> double -> double := SFsub dprec demax.

Definition ladd : ldouble -> ldouble -> ldouble := SFadd lprec lemax.
Definition ldiv : ldouble -> ldouble -> ldouble := SFdiv lprec lemax.
Definition lgt (x y : ldouble) : bool := SFltb y x.
Definition llt (x y : ldouble) : bool := SFltb x y.
Definition lge (x y : ldouble) : bool := SFleb y x.
Definition lle (x y : ldouble) : bool := SFleb x y.
Definition leq (x y : ldouble) : bool := SFeqb x y.

(** The usual arithmetic conversion of a [double] operand to [long double]:
    exact, the significand is only re-aligned to 64 bits. *)
Definition to_ldouble (x : double) : ldouble :=
  match x with
  | S754_finite s m e => binary_round lprec lemax s m e
  | _ => x
  end.

(** Conversion of an [unsigned long] to [long double] (exact below 2^64). *)
Definition ldouble_of_ulong (n : Z) : ldouble :=
  binary_normalize lprec lemax n 0 false.

(** The value [m * 10 ^ e10] (with the sign [neg]) rounded to [double]. *)
Definition double_of_decimal (neg : bool) (m : Z) (e10 : Z) : double :=
  match m with
  | Zpos p =>
      if 0 <=? e10
      then binary_round dprec demax neg (p * Z.to_pos (10 ^ e10)) 0
      else SFdiv dprec demax (S754_finite neg p 0)
                             (S754_finite false (Z.to_pos (10 ^ (- e10))) 0)
  | _ => S754_zero neg
  end.

(** The value [m * 2 ^ e2] (with the sign [neg]) rounded to [double]. *)
Definition double_of_binary (neg : bool) (m : Z) (e2 : Z) : double :=
  match m with
  | Zpos p => binary_round dprec demax neg p e2
  | _ => S754_zero neg
  end.

(** [DBL_MAX] of <float.h>: (2^53 - 1) * 2^971. *)
Definition DBL_MAX : double := S754_finite false (2 ^ 53 - 1) 971.

(** The literals [0.0], [1.8] and [459.67] of the source, as [double]. *)
Definition zero : double := S754_zero false.
Definition c_1_8 : double := double_of_decimal false 18 (-1).
Definition c_459_67 : double := double_of_decimal false 45967 (-2).

End FP.

(** ** The C library functions the program calls *)

Module Libc.

Definition TAB : ascii := "009"%char.
Definition NL : ascii := "010"%char.
Definition NUL : ascii := "000"%char.

(** [isspace] in the C locale. *)
Definition isspace (c : ascii) : bool :=
  let n := nat_of_ascii c in
  (Nat.eqb n 32 || (Nat.leb 9 n && Nat.leb n 13))%bool.

Fixpoint skip_space (s : string) : string :=
  match s with
  | String c r => if isspace c then skip_space r else s
  | EmptyString => s
  end.

(** Value of a character as a digit in the given base (10 or 16). *)
Definition digit_value (base : Z) (c : ascii) : option Z :=
  let n := Z.of_nat (nat_of_ascii c) in
  let v :=
    if (48 <=? n) && (n <=? 57) then Some (n - 48)
    else if (97 <=? n) && (n <=? 102) then Some (n - 87)
    else if (65 <=? n) && (n <=? 70) then Some (n - 55)
    else None in
  match v with
  | Some d => if d <? base then Some d else None
  | None => None
  end.

(** Reads the longest run of digits: the accumulated value, the number of
    digits read and the rest of the string. *)
Fixpoint scan_digits (base : Z) (s : string) (acc : Z) (n : Z) : Z * Z * string :=
  match s with
  | String c r =>
      match digit_value base c with
      | Some d => scan_digits base r (acc * base + d) (n + 1)
      | None => (acc, n, s)
      end
  | EmptyString => (acc, n, s)
  end.

(** An optional sign: [true] for a minus. *)
Definition scan_sign (s : string) : bool * string :=
  match s with
  | String "-" r => (true, r)
  | String "+" r => (false, r)
  | _ => (false, s)
  end.

(** [strtol (s, NULL, 10)]: white space, a sign, decimal digits; the result
    saturates at [LONG_MIN] and [LONG_MAX]. *)
Definition strtol (s : string) : Z :=
  let '(neg, s1) := scan_sign (skip_space s) in
  let '(v, _, _) := scan_digits 10 s1 0 0 in
  Int.clamp_long (if neg then - v else v).

Definition atoi (s : string) : Z := Int.to_int (strtol s).

(** The mathematical integer [strtol] reads, before any saturation. *)
Definition decimal_value (s : string) : Z :=
  let '(neg, s1) := scan_sign (skip_space s) in
  let '(v, _, _) := scan_digits 10 s1 0 0 in
  if neg then - v else v.

Definition lower (c : ascii) : ascii :=
  let n := nat_of_ascii c in
  if (Nat.leb 65 n && Nat.leb n 90)%bool then ascii_of_nat (n + 32) else c.

(** Case-insensitive test that [p] (given in lower case) starts [s]. *)
Fixpoint has_prefix_ci (p s : string) : bool :=
  match p, s with
  | EmptyString, _ => true
  | String a p', String b s' => (Ascii.eqb a (lower b) && has_prefix_ci p' s')%bool
  | String _ _, EmptyString => false
  end.

(** The optional exponent part: the marker ([e] or [p]), a sign and at
    least one decimal digit; 0 when there is no well-formed exponent. *)
Definition scan_exponent (marker : ascii) (s : string) : Z :=
  match s with
  | String c r =>
      if Ascii.eqb (lower c) marker then
        let '(neg, r1) := scan_sign r in
        let '(v, n, _) := scan_digits 10 r1 0 0 in
        if 0 <? n then (if neg then - v else v) else 0
      else 0
  | EmptyString => 0
  end.

(** Mantissa in the given base: digits, optionally a point and more
    digits.  Returns the integer made of all the digits, the number of
    digits after the point, the total number of digits and the rest. *)
Definition scan_mantissa (base : Z) (s : string) : Z * Z * Z * string :=
  let '(m1, n1, r1) := scan_digits base s 0 0 in
  match r1 with
  | String "." r2 =>
      let '(m2, n2, r3) := scan_digits base r2 m1 0 in
      if 0 <? n1 + n2 then (m2, n2, n1 + n2, r3) else (0, 0, 0, s)
  | _ => (m1, 0, n1, r1)
  end.

(** [strtod (s, NULL)]: decimal and hexadecimal floating constants,
    infinities and NaN; +0.0 when no conversion can be performed. *)
Definition strtod (s : string) : FP.double :=
  let '(neg, s1) := scan_sign (skip_space s) in
  if has_prefix_ci "inf" s1 then S754_infinity neg
  else if has_prefix_ci "nan" s1 then S754_nan
  else
    let hex :=
      match s1 with
      | String "0" (String x r) =>
          if Ascii.eqb (lower x) "x" then
            let '(m, f, n, r1) := scan_mantissa 16 r in
            if 0 <? n
            then Some (FP.double_of_binary neg m (scan_exponent "p" r1 - 4 * f))
            else None
          else None
      | _ => None
      end in
    match hex with
    | Some d => d
    | None =>
        let '(m, f, n, r1) := scan_mantissa 10 s1 in
        if 0 <? n
        then FP.double_of_decimal neg m (scan_exponent "e" r1 - f)
        else FP.zero
    end.

Definition atof (s : string) : FP.double := strtod s.

(** [strncpy (dst, src, n)] on a destination of [n] bytes followed by a
    NUL: the string made of the first [n] characters of [src]. *)
Fixpoint strncpy (n : nat) (src : string) : string :=
  match n, src with
  | S n', String c r => String c (strncpy n' r)
  | _, _ => EmptyString
  end.

(** [strcmp (a, b) == 0]. *)
Definition streq (a b : string) : bool := String.eqb a b.

(** The C string held in a buffer: the bytes before the first NUL. *)
Fixpoint c_str (buf : string) : string :=
  match buf with
  | String c r => if Ascii.eqb c NUL then EmptyString else String c (c_str r)
  | EmptyString => EmptyString
  end.

End Libc.

(** ** Reading and tokenizing a line *)

Module Tokenizer.
Import Libc.

Definition is_tab (c : ascii) : bool := Ascii.eqb c TAB.

(** [fgets (line, n + 1, file)]: at most [n] characters, up to and
    including the first newline; the line read and the rest of the file. *)
Fixpoint fgets (n : nat) (file : string) {struct file} : string * string :=
  match n, file with
  | S n', String c r =>
      if Ascii.eqb c NL then (String c EmptyString, r)
      else let '(l, rest) := fgets n' r in (String c l, rest)
  | _, _ => (EmptyString, file)
  end.

(** The first step of [strtok]: skip the leading delimiters. *)
Fixpoint skip_tabs (s : string) : string :=
  match s with
  | String c r => if is_tab c then skip_tabs r else s
  | EmptyString => s
  end.

(** The second step: the token runs to the next delimiter, which is
    overwritten; scanning resumes behind it. *)
Fixpoint take_token (s : string) : string * string :=
  match s with
  | String c r =>
      if is_tab c then (EmptyString, r)
      else let '(t, rest) := take_token r in (String c t, rest)
  | EmptyString => (EmptyString, EmptyString)
  end.

(** One call of [strtok (., "\t")] on what is left of the line: [None] is
    the NULL result. *)
Definition strtok (s : string) : option (string * string) :=
  match skip_tabs s with
  | EmptyString => None
  | s' => Some (take_token s')
  end.

(** The loop [while (token != NULL && tokenIndex < 9)] of [analyze_file],
    for a bound [n] on the number of tokens. *)
Fixpoint tokenize (n : nat) (s : string) : list string :=
  match n with
  | O => []
  | S n' =>
      match strtok s with
      | None => []
      | Some (t, rest) => t :: tokenize n' rest
      end
  end.

(** The tab-separated fields of a line, as the specification counts them:
    one more than the line has tabs, empty ones included. *)
Fixpoint fields (s : string) : list string :=
  match s with
  | String c r =>
      if is_tab c then EmptyString :: fields r
      else match fields r with
           | f :: fs => String c f :: fs
           | [] => [String c EmptyString]
           end
  | EmptyString => [EmptyString]
  end.

Definition nonempty (s : string) : bool :=
  match s with EmptyString => false | _ => true end.

(** A part of a file made of whole lines: empty, or closed by a newline. *)
Fixpoint whole_lines (s : string) : bool :=
  match s with
  | EmptyString => true
  | String c EmptyString => Ascii.eqb c NL
  | String _ r => whole_lines r
  end.

End Tokenizer.

(** ** The program *)

Import Libc Tokenizer.

Definition NUM_STATES : nat := 50.
Definition LINE_SIZE : nat := 100.

Record climate_info : Type := mk_climate_info {
  code : string;
  num_records : Z;
  humidity_sum : FP.ldouble;
  temperature_sum : FP.ldouble;
  max_temp : FP.ldouble;
  min_temp : FP.ldouble;
  max_temp_timestamp : Z;
  min_temp_timestamp : Z;
  lightning_strikes : Z;
  snow_cover_records : Z;
  cloud_cover_sum : FP.ldouble
}.

Definition kelvin_to_fahrenheit (kelvin : FP.double) : FP.double :=
  FP.dsub (FP.dmul kelvin FP.c_1_8) FP.c_459_67.

(** [tokens[i]] *)
Definition tok (tokens : list string) (i : nat) : string :=
  nth i tokens EmptyString.

Definition create_state (tokens : list string) : climate_info :=
  {| code := strncpy 2 (tok tokens 0);
     num_records := 0;
     humidity_sum := FP.to_ldouble FP.zero;
     temperature_sum := FP.to_ldouble FP.zero;
     max_temp := FP.to_ldouble (SFopp FP.DBL_MAX);
     min_temp := FP.to_ldouble FP.DBL_MAX;
     max_temp_timestamp := 0;
     min_temp_timestamp := 0;
     lightning_strikes := 0;
     snow_cover_records := 0;
     cloud_cover_sum := FP.to_ldouble FP.zero |}.

(** The Fahrenheit temperature and the timestamp (in seconds) that
    [update_state_info] reads from a record. *)
Definition temp_fahrenheit (tokens : list string) : FP.double :=
  kelvin_to_fahrenheit (atof (tok tokens 8)).

Definition timestamp (tokens : list string) : Z :=
  Int.div (atoi (tok tokens 1)) 1000.

(** The body of [update_state_info], on the accumulator [states[index]]. *)
Definition update_info (s : climate_info) (tokens : list string) : climate_info :=
  let num_records' := Int.ulong_add (num_records s) 1 in
  let humidity_sum' := FP.ladd (humidity_sum s) (FP.to_ldouble (atof (tok tokens 3))) in
  let temperature_sum' :=
    FP.ladd (temperature_sum s) (FP.to_ldouble (kelvin_to_fahrenheit (atof (tok tokens 8)))) in
  let cloud_cover_sum' := FP.ladd (cloud_cover_sum s) (FP.to_ldouble (atof (tok tokens 5))) in
  let t := FP.to_ldouble (temp_fahrenheit tokens) in
  let '(max_temp', max_temp_timestamp') :=
    if FP.lgt t (max_temp s) then (t, timestamp tokens)
    else (max_temp s, max_temp_timestamp s) in
  let '(min_temp', min_temp_timestamp') :=
    if FP.llt t (min_temp s) then (t, timestamp tokens)
    else (min_temp s, min_temp_timestamp s) in
  {| code := code s;
     num_records := num_records';
     humidity_sum := humidity_sum';
     temperature_sum := temperature_sum';
     max_temp := max_temp';
     min_temp := min_temp';
     max_temp_timestamp := max_temp_timestamp';
     min_temp_timestamp := min_temp_timestamp';
     lightning_strikes := Int.ulong_add (lightning_strikes s) (atoi (tok tokens 6));
     snow_cover_records := Int.ulong_add (snow_cover_records s) (atoi (tok tokens 4));
     cloud_cover_sum := cloud_cover_sum' |}.

(** The array [states]: a NULL pointer is [None]. *)
Definition state_table : Type := list (option climate_info).

(** [states[i] = v] *)
Fixpoint store (i : nat) (v : option climate_info) (states : state_table) : state_table :=
  match states, i with
  | [], _ => []
  | _ :: r, O => v :: r
  | x :: r, S i' => x :: store i' v r
  end.

(** [update_state_info (states, state, index, tokens)]; the parameter
    [state] is not used by the function. *)
Definition update_state_info (states : state_table) (state : climate_info)
    (index : nat) (tokens : list string) : state_table :=
  match nth index states None with
  | Some s => store index (Some (update_info s tokens)) states
  | None => states
  end.

(** The loop [for (i = 0; i < num_states; i++)] of [analyze_file], started
    at [i] with [n] iterations to go. *)
Fixpoint place (n i : nat) (states : state_table) (state : climate_info)
    (tokens : list string) : state_table :=
  match n with
  | O => states
  | S n' =>
      match nth i states None with
      | None => store i (Some state) states
      | Some s =>
          if streq (code s) (code state)
          then update_state_info states state i tokens
          else place n' (S i) states state tokens
      end
  end.

(** One iteration of the [while (fgets ...)] loop of [analyze_file]. *)
Definition process_line (num_states : nat) (states : state_table) (line : string)
  : state_table :=
  let tokens := tokenize 9 (c_str line) in
  if (length tokens <? 9)%nat then states
  else
    let state := create_state tokens in
    place num_states 0 states state tokens.

(** The loop of [analyze_file]: [fuel] bounds the number of lines read. *)
Fixpoint analyze_loop (fuel : nat) (file : string) (states : state_table)
    (num_states : nat) : state_table :=
  match fuel, file with
  | S fuel', String _ _ =>
      let '(line, rest) := fgets (LINE_SIZE - 1) file in
      analyze_loop fuel' rest (process_line num_states states line) num_states
  | _, _ => states
  end.

(** [analyze_file]: every call of [fgets] consumes a character, so the
    length of the file is fuel enough (lemma [analyze_loop_fuel]). *)
Definition analyze_file (file : string) (states : state_table) (num_states : nat)
  : state_table :=
  analyze_loop (String.length file) file states num_states.

(** What [print_report] prints for one accumulator, before formatting. *)
Record report_entry : Type := mk_report_entry {
  r_code : string;
  r_num_records : Z;
  r_average_humidity : FP.ldouble;
  r_average_temperature : FP.ldouble;
  r_max_temp : FP.ldouble;
  r_max_temp_timestamp : Z;
  r_min_temp : FP.ldouble;
  r_min_temp_timestamp : Z;
  r_lightning_strikes : Z;
  r_snow_cover_records : Z;
  r_average_cloud_cover : FP.ldouble
}.

Definition average (sum : FP.ldouble) (n : Z) : FP.ldouble :=
  FP.ldiv sum (FP.ldouble_of_ulong n).

Definition report_of (info : climate_info) : report_entry :=
  {| r_code := code info;
     r_num_records := num_records info;
     r_average_humidity := average (humidity_sum info) (num_records info);
     r_average_temperature := average (temperature_sum info) (num_records info);
     r_max_temp := max_temp info;
     r_max_temp_timestamp := max_temp_timestamp info;
     r_min_temp := min_temp info;
     r_min_temp_timestamp := min_temp_timestamp info;
     r_lightning_strikes := lightning_strikes info;
     r_snow_cover_records := snow_cover_records info;
     r_average_cloud_cover := average (cloud_cover_sum info) (num_records info) |}.

(** The accumulators [print_report] enumerates: the non-NULL entries among
    the first [num_states], by increasing index. *)
Fixpoint found (states : state_table) : list climate_info :=
  match states with
  | [] => []
  | Some info :: r => info :: found r
  | None :: r => found r
  end.

Definition snapshot (states : state_table) (num_states : nat) : list climate_info :=
  found (firstn num_states states).

Definition print_report (states : state_table) (num_states : nat) : list report_entry :=
  map report_of (snapshot states num_states).

(** The loop of [main] over the files named on the command line, [None]
    for one that [fopen] cannot open: the table handed to [print_report]. *)
Definition initial_states : state_table := repeat None NUM_STATES.

Definition main_step (states : state_table) (file : option string) : state_table :=
  match file with
  | Some contents => analyze_file contents states NUM_STATES
  | None => states
  end.

Definition run_table (files : list (option string)) : state_table :=
  fold_left main_step files initial_states.

Definition run_snapshot (files : list (option string)) : list climate_info :=
  snapshot (run_table files) NUM_STATES.

Definition run_report (files : list (option string)) : list report_entry :=
  print_report (run_table files) NUM_STATES.

(** [main]: without a file name the program prints its usage and fails;
    otherwise it prints the report of the run. *)
Definition main (files : list (option string)) : option (list report_entry) :=
  match files with
  | [] => None
  | _ => Some (run_report files)
  end.

(** ** Input for the examples *)

(** A line of the file: the fields joined by tabs, closed by a newline. *)
Fixpoint tdv_line (fs : list string) : string :=
  match fs with
  | [] => String NL EmptyString
  | [f] => (f ++ String NL EmptyString)%string
  | f :: r => (f ++ String TAB (tdv_line r))%string
  end.

(** ** The lines and the records of a run *)

(** The lines [fgets] delivers from a file. *)
Fixpoint file_lines (fuel : nat) (file : string) : list string :=
  match fuel, file with
  | S fuel', String _ _ =>
      let '(line, rest) := fgets (LINE_SIZE - 1) file in
      line :: file_lines fuel' rest
  | _, _ => []
  end.

Definition lines_of (file : string) : list string :=
  file_lines (String.length file) file.

Definition run_lines (files : list (option string)) : list string :=
  flat_map (fun f => match f with Some c => lines_of c | None => [] end) files.

Definition analyze_lines (num_states : nat) (lines : list string)
    (states : state_table) : state_table :=
  fold_left (process_line num_states) lines states.

(** The outcome of the tokenizer on a line: the nine tokens of a record, or
    nothing for a line that is skipped. *)
Definition parse (line : string) : option (list string) :=
  let tokens := tokenize 9 (c_str line) in
  if (length tokens <? 9)%nat then None else Some tokens.

Fixpoint records (lines : list string) : list (list string) :=
  match lines with
  | [] => []
  | l :: r =>
      match parse l with
      | Some tokens => tokens :: records r
      | None => records r
      end
  end.

(** The state code of a record, as [create_state] copies it. *)
Definition rec_code (tokens : list string) : string := strncpy 2 (tok tokens 0).

Definition has_code (c : string) (tokens : list string) : bool :=
  streq (rec_code tokens) c.

(** Codes in order of first appearance, each once. *)
Fixpoint first_seen (l : list string) : list string :=
  match l with
  | [] => []
  | c :: r => c :: filter (fun d => negb (String.eqb d c)) (first_seen r)
  end.

(** The records of a run that carry the code [c], in input order. *)
Definition records_of (c : string) (recs : list (list string)) : list (list string) :=
  filter (has_code c) recs.

(** The accumulator a code ends with: created from its first record, then
    updated with each later one. *)
Definition accumulator_of (recs : list (list string)) (c : string) : climate_info :=
  match records_of c recs with
  | first :: rest => fold_left update_info rest (create_state first)
  | [] => create_state []
  end.

(** The structural reading of the loop [place], on the part of the table
    from the current index on. *)
Fixpoint install (states : state_table) (state : climate_info) (tokens : list string)
  : state_table :=
  match states with
  | [] => []
  | None :: r => Some state :: r
  | Some s :: r =>
      if streq (code s) (code state) then Some (update_info s tokens) :: r
      else Some s :: install r state tokens
  end.

(** The same on the list of accumulators, with [room] free slots behind. *)
Fixpoint fold_record (room : nat) (accs : list climate_info) (tokens : list string)
  : list climate_info :=
  match accs with
  | [] => match room with O => [] | S _ => [create_state tokens] end
  | s :: r =>
      if streq (code s) (rec_code tokens) then update_info s tokens :: r
      else s :: fold_record room r tokens
  end.

Definition table_of (cap : nat) (accs : list climate_info) : state_table :=
  map Some accs ++ repeat None (cap - length accs).

(** The fold of the records of a run into the list of accumulators, and its
    closed form: one accumulator for each of the first [cap] codes, in order
    of first appearance. *)
Definition fold_records (cap : nat) (recs : list (list string))
    (accs : list climate_info) : list climate_info :=
  fold_left (fun a t => fold_record (cap - length a) a t) recs accs.

Definition closed_form (cap : nat) (recs : list (list string)) : list climate_info :=
  map (accumulator_of recs) (firstn cap (first_seen (map rec_code recs))).

(** A [long double] written as a decimal constant. *)
Definition ld (s : string) : FP.ldouble := FP.to_ldouble (atof s).

(** Two records of California: 298.15 K, then 273.15 K.  The conversion
    gives 76.99999999999994 and 31.999999999999943 degrees Fahrenheit, which
    the report prints as 77.0 and 32.0 (no [double] is converted to exactly
    77 or 32 degrees).  The timestamps are 1000000 s and 2000000 s. *)
Definition ca_warm_fields : list string :=
  ["CA"; "1000000000"; "9prcjqk3yc80"; "50.0"; "0.0"; "10.0"; "1.0"; "101325.0"; "298.15"].
Definition ca_cold_fields : list string :=
  ["CA"; "2000000000"; "9prc9sgwvw80"; "60.0"; "1.0"; "20.0"; "0.0"; "101325.0"; "273.15"].

Definition ca_warm : string := tdv_line ca_warm_fields.
Definition ca_cold : string := tdv_line ca_cold_fields.

(** The tokens of these lines: the last one keeps the newline. *)
Definition ca_warm_tokens : list string := tokenize 9 (c_str ca_warm).
Definition ca_cold_tokens : list string := tokenize 9 (c_str ca_cold).

Definition ca_warm_then_cold : list (option string) := [Some (ca_warm ++ ca_cold)%string].
Definition ca_cold_then_warm : list (option string) := [Some (ca_cold ++ ca_warm)%string].
Definition ca_warm_only : list (option string) := [Some ca_warm].

(** The first two lines of the sample in the header of [climate.c]. *)
Definition sample_line_1 : string :=
  tdv_line ["CA"; "1428300000000"; "9prcjqk3yc80"; "93.0"; "0.0"; "100.0"; "0.0";
            "95644.0"; "277.58716"].
Definition sample_line_2 : string :=
  tdv_line ["CA"; "1430308800000"; "9prc9sgwvw80"; "4.0"; "0.0"; "100.0"; "0.0";
            "99226.0"; "282.63037"].
Definition sample_run : list (option string) :=
  [Some (sample_line_1 ++ sample_line_2)%string].

(** A record of the sample with the given state code. *)
Definition line_of_code (c : string) : string :=
  tdv_line [c; "1428300000000"; "9prcjqk3yc80"; "93.0"; "0.0"; "100.0"; "0.0";
            "95644.0"; "277.58716"].


(** The fifty states and the District of Columbia: 51 codes. *)
Definition codes_51 : list string :=
  ["AL"; "AK"; "AZ"; "AR"; "CA"; "CO"; "CT"; "DE"; "FL"; "GA";
   "HI"; "ID"; "IL"; "IN"; "IA"; "KS"; "KY"; "LA"; "ME"; "MD";
   "MA"; "MI"; "MN"; "MS"; "MO"; "MT"; "NE"; "NV"; "NH"; "NJ";
   "NM"; "NY"; "NC"; "ND"; "OH"; "OK"; "OR"; "PA"; "RI"; "SC";
   "SD"; "TN"; "TX"; "UT"; "VT"; "VA"; "WA"; "WV"; "WI"; "WY";
   "DC"].


(** A line of eight fields (the temperature is missing) and a line of nine
    fields whose geolocation is empty. *)
Definition short_line : string :=
  tdv_line ["CA"; "1428300000000"; "9prcjqk3yc80"; "93.0"; "0.0"; "100.0"; "0.0"; "95644.0"].

(** A table with one accumulator, for "CA". *)
Definition ca_table : state_table := run_table ca_warm_only.


Definition snapshot_codes (lines : list string) : list string :=
  map code (snapshot (analyze_lines NUM_STATES lines initial_states) NUM_STATES).

(** [create_state] leaves nothing of the record but its code. *)
Definition zero_initialized (info : climate_info) : Prop :=
  num_records info = 0 /\
  humidity_sum info = S754_zero false /\
  temperature_sum info = S754_zero false /\
  cloud_cover_sum info = S754_zero false /\
  max_temp info = FP.to_ldouble (SFopp FP.DBL_MAX) /\
  min_temp info = FP.to_ldouble FP.DBL_MAX /\
  max_temp_timestamp info = 0 /\
  min_temp_timestamp info = 0 /\
  lightning_strikes info = 0 /\
  snow_cover_records info = 0.


(** California at 298.15 K once more, one thousand seconds later. *)
Definition ca_warm_later_tokens : list string :=
  tokenize 9 (c_str (tdv_line
    ["CA"; "1001000000"; "9prcjqk3yc80"; "40.0"; "0.0"; "30.0"; "0.0"; "101325.0"; "298.15"])).

(** The accumulator of "CA" after one folded record at 298.15 K. *)
Definition ca_folded_once : climate_info :=
  update_info (create_state ca_warm_tokens) ca_warm_tokens.

(** ** The first line of the report *)

(** The first loop of [print_report]: the text printed for the accumulators
    found, and their number [found_states]. *)
Fixpoint states_found (states : state_table) : string * nat :=
  match states with
  | [] => (EmptyString, O)
  | Some info :: r =>
      let '(s, found_states) := states_found r in
      ((" " ++ code info ++ s)%string, S found_states)
  | None :: r => states_found r
  end.

(** The line "States found: ..." that opens the report. *)
Definition print_states_found (states : state_table) (num_states : nat) : string :=
  let '(s, found_states) := states_found (firstn num_states states) in
  ("States found:" ++ s ++
   (if (0 <? found_states)%nat then String NL EmptyString
    else " None" ++ String NL EmptyString))%string.

(** ** Fields of a well-formed line *)



(** The tokens of the line [tdv_line fs]: the fields, the last one with the
    newline that closes the line. *)
Definition line_tokens (fs : list string) : list string :=
  removelast fs ++ [(last fs EmptyString ++ String NL EmptyString)%string].

(** A string without a newline. *)
Fixpoint no_newline (s : string) : bool :=
  match s with
  | EmptyString => true
  | String c r => (negb (Ascii.eqb c NL) && no_newline r)%bool
  end.



(** The parts of [strtod] behind the sign: the hexadecimal constant, if
    there is one, and the whole conversion. *)
Definition strtod_hex (neg : bool) (s1 : string) : option FP.double :=
  match s1 with
  | String "0" (String x r) =>
      if Ascii.eqb (lower x) "x" then
        let '(m, f, n, r1) := scan_mantissa 16 r in
        if 0 <? n
        then Some (FP.double_of_binary neg m (scan_exponent "p" r1 - 4 * f))
        else None
      else None
  | _ => None
  end.

Definition strtod_unsigned (neg : bool) (s1 : string) : FP.double :=
  if has_prefix_ci "inf" s1 then S754_infinity neg
  else if has_prefix_ci "nan" s1 then S754_nan
  else
    match strtod_hex neg s1 with
    | Some d => d
    | None =>
        let '(m, f, n, r1) := scan_mantissa 10 s1 in
        if 0 <? n
        then FP.double_of_decimal neg m (scan_exponent "e" r1 - f)
        else FP.zero
    end.

(** ** More input for the examples *)

(** The sample record with three more fields behind the temperature. *)
Definition sample_fields : list string :=
  ["CA"; "1428300000000"; "9prcjqk3yc80"; "93.0"; "0.0"; "100.0"; "0.0";
   "95644.0"; "277.58716"].
Definition sample_no_newline : string :=
  String.concat (String TAB EmptyString) sample_fields.

(** A record of California whose temperature is not a number, and one whose
    timestamp is negative. *)
Definition ca_nan_tokens : list string :=
  tokenize 9 (c_str (tdv_line
    ["CA"; "1500000000"; "9prcjqk3yc80"; "40.0"; "0.0"; "30.0"; "0.0"; "101325.0"; "nan"])).
Definition ca_early_tokens : list string :=
  tokenize 9 (c_str (tdv_line
    ["CA"; "-1500"; "9prcjqk3yc80"; "40.0"; "0.0"; "30.0"; "0.0"; "101325.0"; "280.0"])).


(** ** The tokenizer *)

Section TokenizerFacts.

Lemma fields_not_nil (s : string) : fields s <> [].
Proof.
  destruct s as [|c r]; simpl; [discriminate|].
  destruct (is_tab c); [discriminate|].
  destruct (fields r); discriminate.
Qed.

Lemma fields_cons_char (c : ascii) (s : string) :
  is_tab c = false ->
  fields (String c s) = String c (hd EmptyString (fields s)) :: tl (fields s).
Proof.
  intros Hc. simpl. rewrite Hc.
  destruct (fields s) eqn:E; [now apply fields_not_nil in E|reflexivity].
Qed.

(** The token [take_token] cuts is the first field; the fields behind it
    are those of the rest, up to a final empty one. *)
Lemma take_token_fields (s : string) :
  exists fs,
    fields s = fst (take_token s) :: fs /\
    filter nonempty fs = filter nonempty (fields (snd (take_token s))).
Proof.
  induction s as [|c r IH].
  - exists []. split; reflexivity.
  - destruct (is_tab c) eqn:Hc.
    + exists (fields r). simpl. rewrite Hc. split; reflexivity.
    + destruct IH as (fs & Hf & Hr).
      exists fs. rewrite fields_cons_char by assumption.
      simpl take_token. rewrite Hc.
      destruct (take_token r) as [t rest] eqn:Et. simpl in *.
      rewrite Hf. simpl. split; [reflexivity|assumption].
Qed.

Lemma strtok_fields (s : string) :
  filter nonempty (fields s) =
    match strtok s with
    | Some (t, rest) => t :: filter nonempty (fields rest)
    | None => []
    end.
Proof.
  unfold strtok. induction s as [|c r IH]; [reflexivity|].
  destruct (is_tab c) eqn:Hc.
  - simpl. rewrite Hc. simpl. exact IH.
  - simpl skip_tabs. rewrite Hc.
    destruct (take_token_fields (String c r)) as (fs & Hf & Hr).
    rewrite Hf. destruct (take_token (String c r)) as [t rest] eqn:Et.
    simpl in Et. rewrite Hc in Et. destruct (take_token r) as [t' rest'].
    inversion Et; subst. simpl. now rewrite Hr.
Qed.

(** The tokens of a line are its non-empty fields, the first [n] of them:
    [strtok] takes a run of tabs for one separator. *)
Lemma tokenize_fields (n : nat) (s : string) :
  tokenize n s = firstn n (filter nonempty (fields s)).
Proof.
  revert s. induction n as [|n IH]; intros s; [reflexivity|].
  simpl tokenize. rewrite (strtok_fields s).
  destruct (strtok s) as [[t rest]|]; [|reflexivity].
  simpl. now rewrite IH.
Qed.

Lemma filter_length_le {A} (p : A -> bool) (l : list A) :
  (length (filter p l) <= length l)%nat.
Proof. induction l as [|a l IH]; simpl; [lia|destruct (p a); simpl; lia]. Qed.


Lemma tab_not_nul (c : ascii) : is_tab c = true -> Ascii.eqb c NUL = false.
Proof.
  unfold is_tab. intros H. apply Ascii.eqb_eq in H. subst. reflexivity.
Qed.

(** Cutting a buffer at its first NUL loses fields, and non-empty fields,
    but never adds any. *)
Lemma c_str_fields (l : string) :
  (length (fields (c_str l)) <= length (fields l))%nat /\
  (length (filter nonempty (fields (c_str l)))
     <= length (filter nonempty (fields l)))%nat /\
  (length (filter nonempty (tl (fields (c_str l))))
     <= length (filter nonempty (tl (fields l))))%nat.
Proof.
  induction l as [|c r (IH1 & IH2 & IH3)]; [simpl; lia|].
  destruct (is_tab c) eqn:Hc.
  - simpl c_str. rewrite (tab_not_nul _ Hc). simpl. rewrite Hc. simpl. lia.
  - rewrite (fields_cons_char c r Hc).
    simpl c_str. destruct (Ascii.eqb c NUL).
    + simpl. lia.
    + rewrite (fields_cons_char c (c_str r) Hc). simpl.
      pose proof (fields_not_nil r) as Hr.
      pose proof (fields_not_nil (c_str r)) as Hr'.
      destruct (fields r); [easy|]. destruct (fields (c_str r)); [easy|].
      simpl in *. lia.
Qed.

Lemma tokenize_length_nonempty (n : nat) (line : string) :
  (length (tokenize n (c_str line))
     <= length (filter nonempty (fields line)))%nat.
Proof.
  rewrite tokenize_fields. rewrite length_firstn.
  pose proof (c_str_fields line). lia.
Qed.

Lemma tokenize_length_fields (n : nat) (line : string) :
  (length (tokenize n (c_str line)) <= length (fields line))%nat.
Proof.
  pose proof (tokenize_length_nonempty n line).
  pose proof (filter_length_le nonempty (fields line)). lia.
Qed.



Lemma parse_short (line : string) :
  (length (tokenize 9 (c_str line)) < 9)%nat -> parse line = None.
Proof.
  unfold parse. cbv zeta. intros H.
  destruct (Nat.ltb_spec (length (tokenize 9 (c_str line))) 9); [reflexivity|lia].
Qed.

Lemma process_line_parse (num_states : nat) (states : state_table) (line : string) :
  process_line num_states states line =
    match parse line with
    | Some tokens => place num_states 0 states (create_state tokens) tokens
    | None => states
    end.
Proof.
  unfold process_line, parse. cbv zeta.
  destruct (length (tokenize 9 (c_str line)) <? 9)%nat; reflexivity.
Qed.

End TokenizerFacts.

(** ** Reading a file line by line *)

Section FileFacts.

Lemma fgets_rest_le (n : nat) (file : string) :
  (String.length (snd (fgets n file)) <= String.length file)%nat.
Proof.
  revert file. induction n as [|n IH]; intros [|c r]; simpl; try lia.
  destruct (Ascii.eqb c NL); simpl; [lia|].
  specialize (IH r). destruct (fgets n r). simpl in *. lia.
Qed.

(** What [fgets] returns and what it leaves make up the file. *)
Lemma fgets_append (n : nat) (file : string) :
  (fst (fgets n file) ++ snd (fgets n file))%string = file.
Proof.
  revert file. induction n as [|n IH]; intros [|c r]; simpl; try reflexivity.
  destruct (Ascii.eqb c NL); simpl; [reflexivity|].
  specialize (IH r). destruct (fgets n r). simpl in *. now rewrite IH.
Qed.

Lemma fgets_length (n : nat) (file : string) :
  (String.length (fst (fgets n file)) <= n)%nat.
Proof.
  revert file. induction n as [|n IH]; intros [|c r]; simpl; try lia.
  destruct (Ascii.eqb c NL); simpl; [lia|].
  specialize (IH r). destruct (fgets n r). simpl in *. lia.
Qed.

(** Any fuel from the length of the file on reads the same lines: the
    loop of [analyze_file] ends, at the end of the file. *)
Lemma file_lines_fuel (fuel : nat) (file : string) :
  (String.length file <= fuel)%nat -> file_lines fuel file = lines_of file.
Proof.
  unfold lines_of.
  assert (H : forall f1 f2 s, (String.length s <= f1)%nat ->
            (String.length s <= f2)%nat -> file_lines f1 s = file_lines f2 s).
  { induction f1 as [|f1 IH]; intros f2 s H1 H2.
    - destruct s; [|simpl in H1; lia]. destruct f2; reflexivity.
    - destruct s as [|c r]; [destruct f2; reflexivity|].
      destruct f2 as [|f2]; [simpl in H2; lia|].
      cbn [file_lines].
      pose proof (fgets_rest_le (LINE_SIZE - 1) (String c r)) as Hle.
      destruct (fgets (LINE_SIZE - 1) (String c r)) as [line rest] eqn:E.
      assert (String.length rest <= String.length r)%nat.
      { change (LINE_SIZE - 1)%nat with (S 98) in E. simpl in E.
        destruct (Ascii.eqb c NL).
        - inversion E; subst. lia.
        - pose proof (fgets_rest_le 98 r) as Hr. destruct (fgets 98 r).
          inversion E; subst. exact Hr. }
      simpl in H1, H2. f_equal. apply IH; lia. }
  intros Hf. apply H; lia.
Qed.

Lemma analyze_loop_lines (fuel : nat) (file : string) (states : state_table)
    (num_states : nat) :
  analyze_loop fuel file states num_states =
    analyze_lines num_states (file_lines fuel file) states.
Proof.
  revert file states. induction fuel as [|fuel IH]; intros file states.
  - destruct file; reflexivity.
  - destruct file as [|c r]; [reflexivity|].
    cbn [analyze_loop file_lines].
    destruct (fgets (LINE_SIZE - 1) (String c r)) as [line rest].
    rewrite IH. reflexivity.
Qed.

Lemma analyze_loop_fuel (fuel : nat) (file : string) (states : state_table)
    (num_states : nat) :
  (String.length file <= fuel)%nat ->
  analyze_loop fuel file states num_states = analyze_file file states num_states.
Proof.
  intros H. unfold analyze_file. rewrite !analyze_loop_lines.
  rewrite file_lines_fuel by assumption. reflexivity.
Qed.

Lemma analyze_file_lines (file : string) (states : state_table) (num_states : nat) :
  analyze_file file states num_states =
    analyze_lines num_states (lines_of file) states.
Proof. unfold analyze_file. apply analyze_loop_lines. Qed.

Lemma analyze_lines_app (num_states : nat) (l1 l2 : list string)
    (states : state_table) :
  analyze_lines num_states (l1 ++ l2) states =
    analyze_lines num_states l2 (analyze_lines num_states l1 states).
Proof. unfold analyze_lines. apply fold_left_app. Qed.

Lemma fold_main_step (files : list (option string)) (states : state_table) :
  fold_left main_step files states =
    analyze_lines NUM_STATES (run_lines files) states.
Proof.
  revert states. induction files as [|f files IH]; intros states; [reflexivity|].
  simpl fold_left. rewrite IH. unfold run_lines. simpl flat_map.
  rewrite analyze_lines_app. destruct f as [c|]; simpl main_step.
  - now rewrite analyze_file_lines.
  - reflexivity.
Qed.

(** A run is the fold of [process_line] over the lines of its files. *)
Lemma run_table_lines (files : list (option string)) :
  run_table files = analyze_lines NUM_STATES (run_lines files) initial_states.
Proof. apply fold_main_step. Qed.

Lemma main_report (f : option string) (files : list (option string)) :
  main (f :: files) = Some (run_report (f :: files)).
Proof. reflexivity. Qed.

Lemma records_app (l1 l2 : list string) :
  records (l1 ++ l2) = records l1 ++ records l2.
Proof.
  induction l1 as [|l l1 IH]; [reflexivity|].
  simpl. destruct (parse l); simpl; now rewrite IH.
Qed.

End FileFacts.

(** ** A short line inside a file, whatever its length *)

Lemma nonempty_fields_cons (c : ascii) (z : string) :
  is_tab c = false ->
  filter nonempty (fields (String c z)) =
    String c (hd EmptyString (fields z)) :: filter nonempty (tl (fields z)).
Proof. intros Hc. now rewrite (fields_cons_char c z Hc). Qed.

Lemma nonempty_tail_le (l : list string) :
  (length (filter nonempty l) <= S (length (filter nonempty (tl l))))%nat.
Proof. destruct l as [|a l]; simpl; [lia|]. destruct (nonempty a); simpl; lia. Qed.

(** A part of a string has no more non-empty fields than the string. *)
Lemma nonempty_fields_app (x y : string) :
  (length (filter nonempty (fields x))
     <= length (filter nonempty (fields (x ++ y)%string)))%nat /\
  (length (filter nonempty (tl (fields x)))
     <= length (filter nonempty (tl (fields (x ++ y)%string))))%nat /\
  (length (filter nonempty (fields y))
     <= length (filter nonempty (fields (x ++ y)%string)))%nat.
Proof.
  induction x as [|c r (IH1 & IH2 & IH3)].
  - simpl. repeat split; lia.
  - change (String c r ++ y)%string with (String c (r ++ y)%string).
    destruct (is_tab c) eqn:Hc.
    + simpl. rewrite Hc. simpl. repeat split; assumption.
    + rewrite !nonempty_fields_cons by assumption.
      rewrite !(fields_cons_char c _ Hc). cbn [tl length].
      pose proof (nonempty_tail_le (fields (r ++ y)%string)).
      repeat split; lia.
Qed.

Lemma fgets_rest_lt (n : nat) (c : ascii) (r : string) :
  (String.length (snd (fgets (S n) (String c r))) <= String.length r)%nat.
Proof.
  simpl. destruct (Ascii.eqb c NL); simpl; [lia|].
  pose proof (fgets_rest_le n r). destruct (fgets n r). simpl in *. lia.
Qed.

(** The lines of a file: the first buffer, then the lines of the rest. *)
Lemma lines_of_cons (c : ascii) (r : string) :
  lines_of (String c r) =
    fst (fgets (LINE_SIZE - 1) (String c r)) ::
    lines_of (snd (fgets (LINE_SIZE - 1) (String c r))).
Proof.
  unfold lines_of at 1. cbn [String.length file_lines].
  pose proof (fgets_rest_lt 98 c r) as H.
  change (S 98) with (LINE_SIZE - 1)%nat in H.
  destruct (fgets (LINE_SIZE - 1) (String c r)) as [line rest]. simpl in *.
  f_equal. now apply file_lines_fuel.
Qed.

Lemma whole_lines_tail (c : ascii) (r : string) :
  whole_lines (String c r) = true -> whole_lines r = true.
Proof. destruct r; [reflexivity|]. simpl. auto. Qed.

(** [fgets] does not read past the end of a part of the file that ends
    with a newline. *)
Lemma fgets_app (n : nat) (c : ascii) (r rest : string) :
  whole_lines (String c r) = true ->
  fgets (S n) (String c r ++ rest) =
    (fst (fgets (S n) (String c r)), (snd (fgets (S n) (String c r)) ++ rest)%string) /\
  whole_lines (snd (fgets (S n) (String c r))) = true.
Proof.
  revert c r. induction n as [|n IH]; intros c r Hw.
  - simpl. destruct (Ascii.eqb c NL) eqn:Hc; simpl.
    + split; [reflexivity|now apply whole_lines_tail in Hw].
    + destruct r as [|c' r']; [simpl in Hw; congruence|].
      simpl. split; [reflexivity|now apply whole_lines_tail in Hw].
  - change (String c r ++ rest)%string with (String c (r ++ rest)%string).
    cbn [fgets]. destruct (Ascii.eqb c NL) eqn:Hc.
    + simpl. split; [reflexivity|now apply whole_lines_tail in Hw].
    + destruct r as [|c' r']; [simpl in Hw; congruence|].
      apply whole_lines_tail in Hw.
      destruct (IH c' r' Hw) as [E Hw'].
      rewrite E. destruct (fgets (S n) (String c' r')) as [l a']. simpl in *.
      split; [reflexivity|exact Hw'].
Qed.

Lemma lines_of_app (a rest : string) :
  whole_lines a = true -> lines_of (a ++ rest) = lines_of a ++ lines_of rest.
Proof.
  remember (String.length a) as k eqn:Hk. revert a Hk.
  induction k as [k IH] using lt_wf_ind. intros a Hk Hw.
  destruct a as [|c r]; [reflexivity|].
  change (String c r ++ rest)%string with (String c (r ++ rest)%string).
  rewrite !lines_of_cons.
  change (String c (r ++ rest)%string) with (String c r ++ rest)%string.
  destruct (fgets_app 98 c r rest Hw) as [E Hw'].
  change (S 98) with (LINE_SIZE - 1)%nat in E, Hw'.
  rewrite E. cbn [fst snd]. cbn [app]. f_equal.
  pose proof (fgets_rest_lt 98 c r) as Hlt.
  change (S 98) with (LINE_SIZE - 1)%nat in Hlt.
  apply (IH (String.length (snd (fgets (LINE_SIZE - 1) (String c r)))));
    [subst k; cbn [String.length]; lia|reflexivity|exact Hw'].
Qed.

(** No buffer has more non-empty fields than the part of the file it is
    read from. *)
Lemma lines_of_nonempty (l : string) (line : string) :
  In line (lines_of l) ->
  (length (filter nonempty (fields line))
     <= length (filter nonempty (fields l)))%nat.
Proof.
  remember (String.length l) as k eqn:Hk. revert l Hk.
  induction k as [k IH] using lt_wf_ind. intros l Hk Hin.
  destruct l as [|c r]; [destruct Hin|].
  rewrite lines_of_cons in Hin.
  pose proof (fgets_append (LINE_SIZE - 1) (String c r)) as Happ.
  pose proof (fgets_rest_lt 98 c r) as Hlt.
  change (S 98) with (LINE_SIZE - 1)%nat in Hlt.
  destruct (nonempty_fields_app (fst (fgets (LINE_SIZE - 1) (String c r)))
              (snd (fgets (LINE_SIZE - 1) (String c r)))) as (H1 & _ & H3).
  rewrite Happ in H1, H3.
  destruct Hin as [<-|Hin]; [exact H1|].
  specialize (IH (String.length (snd (fgets (LINE_SIZE - 1) (String c r))))).
  assert (Hle : (length (filter nonempty (fields line)) <=
                 length (filter nonempty
                           (fields (snd (fgets (LINE_SIZE - 1) (String c r))))))%nat).
  { apply IH; [subst k; cbn [String.length]; lia|reflexivity|exact Hin]. }
  lia.
Qed.

Lemma analyze_lines_few_tokens (num_states : nat) (lines : list string)
    (states : state_table) :
  (forall line, In line lines ->
                (length (filter nonempty (fields line)) < 9)%nat) ->
  analyze_lines num_states lines states = states.
Proof.
  revert states. induction lines as [|l lines IH]; intros states H; [reflexivity|].
  unfold analyze_lines. cbn [fold_left].
  rewrite process_line_parse, parse_short.
  - apply IH. intros line Hin. apply H. now right.
  - pose proof (tokenize_length_nonempty 9 l).
    assert (length (filter nonempty (fields l)) < 9)%nat by (apply H; now left).
    lia.
Qed.

(** A part of a file that starts a line, ends with a newline and has fewer
    than nine non-empty tab-separated fields is read as if it were not
    there, also when it is longer than the buffer of [fgets]. *)
Lemma part_of_file_is_skipped (before part after : string)
    (states : state_table) (num_states : nat) :
  whole_lines before = true -> whole_lines part = true ->
  (length (filter nonempty (fields part)) < 9)%nat ->
  analyze_file (before ++ part ++ after) states num_states =
    analyze_file (before ++ after) states num_states.
Proof.
  intros Hb Hp Hshort. rewrite !analyze_file_lines.
  rewrite !lines_of_app by assumption. rewrite !analyze_lines_app.
  f_equal. apply analyze_lines_few_tokens.
  intros line Hin. apply lines_of_nonempty in Hin. lia.
Qed.

(** ** The state table *)

Section TableFacts.

Lemma nth_app_here (pre : state_table) (x : option climate_info) (r : state_table) :
  nth (length pre) (pre ++ x :: r) None = x.
Proof. induction pre; simpl; auto. Qed.

Lemma store_app_here (pre : state_table) (v x : option climate_info)
    (r : state_table) :
  store (length pre) v (pre ++ x :: r) = pre ++ v :: r.
Proof. induction pre as [|a pre IH]; simpl; [reflexivity|now rewrite IH]. Qed.

(** The indexed loop of the source visits the table from left to right. *)
Lemma place_install (post pre : state_table) (state : climate_info)
    (tokens : list string) :
  place (length post) (length pre) (pre ++ post) state tokens =
    pre ++ install post state tokens.
Proof.
  revert pre. induction post as [|x post IH]; intros pre; [reflexivity|].
  cbn [place length install]. rewrite nth_app_here.
  destruct x as [s|].
  - destruct (streq (code s) (code state)).
    + unfold update_state_info. rewrite nth_app_here. apply store_app_here.
    + specialize (IH (pre ++ [Some s])).
      rewrite <- !app_assoc, length_app in IH. simpl in IH.
      rewrite Nat.add_1_r in IH. exact IH.
  - apply store_app_here.
Qed.

Lemma install_length (states : state_table) (state : climate_info)
    (tokens : list string) :
  length (install states state tokens) = length states.
Proof.
  induction states as [|[s|] r IH]; simpl; auto.
  destruct (streq (code s) (code state)); simpl; auto.
Qed.

Lemma fold_record_length (room : nat) (accs : list climate_info)
    (tokens : list string) :
  (length accs <= length (fold_record room accs tokens) /\
   length (fold_record room accs tokens) <= length accs + Nat.min room 1)%nat.
Proof.
  induction accs as [|s r IH]; simpl.
  - destruct room; simpl; lia.
  - destruct (streq (code s) (rec_code tokens)); simpl; lia.
Qed.

Lemma install_accs (accs : list climate_info) (k : nat) (tokens : list string) :
  install (map Some accs ++ repeat None k) (create_state tokens) tokens =
    map Some (fold_record k accs tokens) ++
    repeat None (k + length accs - length (fold_record k accs tokens)).
Proof.
  induction accs as [|s r IH].
  - destruct k; simpl; [reflexivity|]. now rewrite Nat.add_0_r, Nat.sub_0_r.
  - cbn [map app install fold_record length]. change (code (create_state tokens))
      with (rec_code tokens).
    destruct (streq (code s) (rec_code tokens)).
    + cbn [map app length]. now replace (k + S (length r) - S (length r))%nat with k by lia.
    + rewrite IH. cbn [map app length].
      now replace (k + S (length r) - S (length (fold_record k r tokens)))%nat
        with (k + length r - length (fold_record k r tokens))%nat by lia.
Qed.

Lemma table_of_length (cap : nat) (accs : list climate_info) :
  (length accs <= cap)%nat -> length (table_of cap accs) = cap.
Proof.
  intros H. unfold table_of. rewrite length_app, length_map, repeat_length. lia.
Qed.

Lemma place_table (cap : nat) (accs : list climate_info) (tokens : list string) :
  (length accs <= cap)%nat ->
  place cap 0 (table_of cap accs) (create_state tokens) tokens =
    table_of cap (fold_record (cap - length accs) accs tokens).
Proof.
  intros H.
  pose proof (place_install (table_of cap accs) [] (create_state tokens) tokens) as P.
  rewrite table_of_length in P by assumption. simpl in P. rewrite P.
  unfold table_of at 1. rewrite install_accs. unfold table_of.
  pose proof (fold_record_length (cap - length accs) accs tokens).
  do 2 f_equal. lia.
Qed.

Lemma fold_records_length (cap : nat) (recs : list (list string))
    (accs : list climate_info) :
  (length accs <= cap)%nat -> (length (fold_records cap recs accs) <= cap)%nat.
Proof.
  revert accs. induction recs as [|t recs IH]; intros accs H; [exact H|].
  apply IH. pose proof (fold_record_length (cap - length accs) accs t). lia.
Qed.

(** Processing lines on a table whose accumulators come first is folding
    the records of these lines into the list of accumulators. *)
Lemma analyze_lines_table (cap : nat) (lines : list string)
    (accs : list climate_info) :
  (length accs <= cap)%nat ->
  analyze_lines cap lines (table_of cap accs) =
    table_of cap (fold_records cap (records lines) accs).
Proof.
  revert accs. induction lines as [|l lines IH]; intros accs H; [reflexivity|].
  unfold analyze_lines. cbn [fold_left records].
  rewrite process_line_parse. destruct (parse l) as [tokens|].
  - rewrite place_table by assumption. apply IH.
    pose proof (fold_record_length (cap - length accs) accs tokens). lia.
  - apply IH. assumption.
Qed.

Lemma found_table (accs : list climate_info) (k : nat) :
  found (map Some accs ++ repeat None k) = accs.
Proof.
  induction accs as [|s r IH]; simpl.
  - induction k; simpl; auto.
  - now rewrite IH.
Qed.

Lemma snapshot_table (cap : nat) (accs : list climate_info) :
  (length accs <= cap)%nat -> snapshot (table_of cap accs) cap = accs.
Proof.
  intros H. unfold snapshot.
  rewrite firstn_all2 by (rewrite table_of_length; auto).
  apply found_table.
Qed.

Lemma initial_table : initial_states = table_of NUM_STATES [].
Proof. reflexivity. Qed.

Lemma snapshot_lines (lines : list string) :
  snapshot (analyze_lines NUM_STATES lines initial_states) NUM_STATES =
    fold_records NUM_STATES (records lines) [].
Proof.
  rewrite initial_table, analyze_lines_table by (simpl; lia).
  apply snapshot_table. apply fold_records_length. simpl; lia.
Qed.

End TableFacts.

(** ** Codes in order of first appearance *)

Section FirstSeen.

Lemma In_first_seen (l : list string) (d : string) :
  In d (first_seen l) <-> In d l.
Proof.
  induction l as [|c r IH]; simpl; [tauto|].
  rewrite filter_In, IH. destruct (String.eqb_spec d c) as [->|Hn]; simpl.
  - tauto.
  - split; [tauto|]. intros [E|H]; [now subst|tauto].
Qed.


Lemma NoDup_first_seen (l : list string) : NoDup (first_seen l).
Proof.
  induction l as [|c r IH]; simpl; constructor.
  - rewrite filter_In, String.eqb_refl. simpl. intros [_ H]. discriminate.
  - now apply NoDup_filter.
Qed.

Lemma first_seen_snoc (l : list string) (c : string) :
  first_seen (l ++ [c]) =
    if in_dec string_dec c l then first_seen l else first_seen l ++ [c].
Proof.
  induction l as [|a l IH]; [reflexivity|].
  cbn [app first_seen]. rewrite IH.
  destruct (in_dec string_dec c l) as [Hin|Hout];
    destruct (in_dec string_dec c (a :: l)) as [Hin'|Hout']; simpl in *.
  - reflexivity.
  - tauto.
  - destruct Hin' as [->|]; [|tauto].
    rewrite filter_app. simpl. rewrite String.eqb_refl. simpl.
    now rewrite app_nil_r.
  - rewrite filter_app. simpl.
    destruct (String.eqb_spec c a) as [->|]; [tauto|]. reflexivity.
Qed.

Lemma firstn_incl {A} (n : nat) (l : list A) (x : A) :
  In x (firstn n l) -> In x l.
Proof.
  revert n. induction l as [|a l IH]; intros [|n]; simpl; try tauto.
  intros [H|H]; [now left|right; eauto].
Qed.

Lemma firstn_NoDup {A} (n : nat) (l : list A) : NoDup l -> NoDup (firstn n l).
Proof.
  revert n. induction l as [|a l IH]; intros [|n] H; simpl; try constructor.
  - inversion H; subst. intros Hin. apply firstn_incl in Hin. contradiction.
  - inversion H; subst. auto.
Qed.

End FirstSeen.

(** ** The closed form of a run *)

Section ClosedForm.

Lemma code_update_info (s : climate_info) (tokens : list string) :
  code (update_info s tokens) = code s.
Proof.
  unfold update_info.
  destruct (FP.lgt _ _), (FP.llt _ _); reflexivity.
Qed.

Lemma code_fold_update (l : list (list string)) (s : climate_info) :
  code (fold_left update_info l s) = code s.
Proof.
  revert s. induction l as [|t l IH]; intros s; simpl; [reflexivity|].
  now rewrite IH, code_update_info.
Qed.

Lemma has_code_true (c : string) (t : list string) :
  has_code c t = true <-> rec_code t = c.
Proof. unfold has_code, streq. apply String.eqb_eq. Qed.

Lemma has_code_false (c : string) (t : list string) :
  has_code c t = false <-> rec_code t <> c.
Proof. unfold has_code, streq. apply String.eqb_neq. Qed.

Lemma records_of_seen (recs : list (list string)) (c : string) :
  In c (map rec_code recs) ->
  exists first rest, records_of c recs = first :: rest /\ rec_code first = c.
Proof.
  intros H. apply in_map_iff in H. destruct H as (t & Ht & Hin).
  assert (Hf : In t (records_of c recs)).
  { apply filter_In. split; [assumption|]. now apply has_code_true. }
  destruct (records_of c recs) as [|first rest] eqn:E; [destruct Hf|].
  exists first, rest. split; [reflexivity|].
  assert (Hh : In first (records_of c recs)) by (rewrite E; now left).
  apply filter_In in Hh. now apply has_code_true.
Qed.

Lemma records_of_unseen (recs : list (list string)) (c : string) :
  ~ In c (map rec_code recs) -> records_of c recs = [].
Proof.
  intros H. destruct (records_of c recs) as [|t r] eqn:E; [reflexivity|].
  exfalso. apply H.
  assert (Hh : In t (records_of c recs)) by (rewrite E; now left).
  apply filter_In in Hh. destruct Hh as [Hin Hc].
  apply has_code_true in Hc. subst c. now apply in_map.
Qed.

Lemma code_accumulator_of (recs : list (list string)) (c : string) :
  In c (map rec_code recs) -> code (accumulator_of recs c) = c.
Proof.
  intros H. destruct (records_of_seen recs c H) as (first & rest & E & Hc).
  unfold accumulator_of. rewrite E, code_fold_update. exact Hc.
Qed.

Lemma accumulator_of_snoc_same (recs : list (list string)) (r : list string) :
  In (rec_code r) (map rec_code recs) ->
  accumulator_of (recs ++ [r]) (rec_code r) =
    update_info (accumulator_of recs (rec_code r)) r.
Proof.
  intros H. destruct (records_of_seen recs _ H) as (first & rest & E & Hc).
  unfold accumulator_of, records_of in *. rewrite filter_app, E. simpl.
  replace (has_code (rec_code r) r) with true
    by (symmetry; now apply has_code_true).
  simpl. now rewrite fold_left_app.
Qed.

Lemma accumulator_of_snoc_other (recs : list (list string)) (r : list string)
    (d : string) :
  rec_code r <> d -> accumulator_of (recs ++ [r]) d = accumulator_of recs d.
Proof.
  intros H. unfold accumulator_of, records_of. rewrite filter_app. simpl.
  replace (has_code d r) with false by (symmetry; now apply has_code_false).
  now rewrite app_nil_r.
Qed.

Lemma accumulator_of_snoc_new (recs : list (list string)) (r : list string) :
  ~ In (rec_code r) (map rec_code recs) ->
  accumulator_of (recs ++ [r]) (rec_code r) = create_state r.
Proof.
  intros H. unfold accumulator_of, records_of. rewrite filter_app.
  fold (records_of (rec_code r) recs). rewrite (records_of_unseen _ _ H). simpl.
  replace (has_code (rec_code r) r) with true
    by (symmetry; now apply has_code_true).
  reflexivity.
Qed.

(** One step of the fold on accumulators listed by distinct codes. *)
Lemma fold_record_map (g : string -> climate_info) (ds : list string)
    (room : nat) (r : list string) :
  NoDup ds -> (forall d, In d ds -> code (g d) = d) ->
  fold_record room (map g ds) r =
    if in_dec string_dec (rec_code r) ds
    then map (fun d => if String.eqb d (rec_code r) then update_info (g d) r
                       else g d) ds
    else map g ds ++ match room with O => [] | S _ => [create_state r] end.
Proof.
  intros Hnd Hg. induction ds as [|d ds IH].
  - simpl. destruct room; reflexivity.
  - inversion Hnd as [|? ? Hd Hnd']; subst.
    cbn [map fold_record]. rewrite (Hg d) by now left. unfold streq.
    destruct (String.eqb_spec d (rec_code r)) as [E|N].
    + destruct (in_dec string_dec (rec_code r) (d :: ds)) as [_|Hout];
        [|exfalso; apply Hout; now left].
      f_equal. apply map_ext_in. intros x Hx.
      destruct (String.eqb_spec x (rec_code r)) as [E'|]; [|reflexivity].
      exfalso. apply Hd. congruence.
    + rewrite IH by (auto; intros; apply Hg; now right).
      destruct (in_dec string_dec (rec_code r) ds) as [Hin|Hout];
        destruct (in_dec string_dec (rec_code r) (d :: ds)) as [Hin'|Hout'];
        simpl in *; tauto.
Qed.

Lemma closed_form_snoc (cap : nat) (recs : list (list string)) (r : list string) :
  closed_form cap (recs ++ [r]) =
    fold_record (cap - length (closed_form cap recs)) (closed_form cap recs) r.
Proof.
  unfold closed_form at 2 3.
  assert (Hfs : forall d, In d (firstn cap (first_seen (map rec_code recs))) ->
                      In d (map rec_code recs)).
  { intros d Hd. apply firstn_incl in Hd. exact (proj1 (In_first_seen _ _) Hd). }
  assert (Hfs' : forall d, In d (map rec_code recs) ->
                       In d (first_seen (map rec_code recs))).
  { intros d Hd. exact (proj2 (In_first_seen _ _) Hd). }
  set (fs := first_seen (map rec_code recs)) in *.
  rewrite fold_record_map;
    [|apply firstn_NoDup, NoDup_first_seen
     |intros d Hd; apply code_accumulator_of; auto].
  unfold closed_form. rewrite map_app.
  change (map rec_code [r]) with [rec_code r].
  rewrite first_seen_snoc. fold fs.
  rewrite length_map, length_firstn.
  destruct (in_dec string_dec (rec_code r) (map rec_code recs)) as [Hseen|Hnew].
  - destruct (in_dec string_dec (rec_code r) (firstn cap fs)) as [Hin|Hout].
    + apply map_ext_in. intros d Hd.
      destruct (String.eqb_spec d (rec_code r)) as [->|N].
      * now apply accumulator_of_snoc_same.
      * apply accumulator_of_snoc_other. congruence.
    + assert (Hlen : (cap < length fs)%nat).
      { destruct (Nat.lt_ge_cases cap (length fs)) as [|Hge]; [assumption|].
        exfalso. apply Hout. rewrite firstn_all2 by assumption. auto. }
      replace (cap - Nat.min cap (length fs))%nat with 0%nat by lia.
      rewrite app_nil_r. apply map_ext_in. intros d Hd.
      apply accumulator_of_snoc_other. intros E. apply Hout. now rewrite E.
  - destruct (in_dec string_dec (rec_code r) (firstn cap fs)) as [Hin|_];
      [exfalso; auto|].
    destruct (Nat.lt_ge_cases (length fs) cap) as [Hlt|Hge].
    + rewrite (firstn_all2 (fs ++ [rec_code r]))
        by (rewrite length_app; simpl; lia).
      assert (Hall : firstn cap fs = fs) by (apply firstn_all2; lia).
      rewrite Hall in *.
      destruct (cap - Nat.min cap (length fs))%nat eqn:E; [lia|].
      rewrite map_app. simpl map.
      rewrite accumulator_of_snoc_new by assumption. f_equal.
      apply map_ext_in. intros d Hd. apply accumulator_of_snoc_other.
      intros E'. apply Hnew. rewrite E'. auto.
    + rewrite firstn_app.
      replace (cap - length fs)%nat with 0%nat by lia. simpl firstn.
      rewrite app_nil_r.
      replace (cap - Nat.min cap (length fs))%nat with 0%nat by lia.
      rewrite app_nil_r. apply map_ext_in. intros d Hd.
      apply accumulator_of_snoc_other. intros E. apply Hnew.
      rewrite E. auto.
Qed.

(** The accumulators after any records: the first [cap] codes in order of
    first appearance, each with the fold of its records but the first. *)
Lemma fold_records_closed_form (cap : nat) (recs : list (list string)) :
  fold_records cap recs [] = closed_form cap recs.
Proof.
  induction recs as [|r recs IH] using rev_ind.
  { unfold closed_form. simpl. now rewrite firstn_nil. }
  unfold fold_records in *. rewrite fold_left_app. simpl.
  rewrite IH. symmetry. apply closed_form_snoc.
Qed.

Lemma snapshot_closed_form (lines : list string) :
  snapshot (analyze_lines NUM_STATES lines initial_states) NUM_STATES =
    closed_form NUM_STATES (records lines).
Proof. rewrite snapshot_lines. apply fold_records_closed_form. Qed.

Lemma run_snapshot_closed_form (files : list (option string)) :
  run_snapshot files = closed_form NUM_STATES (records (run_lines files)).
Proof. unfold run_snapshot. rewrite run_table_lines. apply snapshot_closed_form. Qed.

End ClosedForm.

(** ** Comparisons of floating-point numbers *)

Section FloatFacts.

Lemma SFcompare_Eq_sym (x y : spec_float) :
  SFcompare x y = Some Eq -> SFcompare y x = Some Eq.
Proof.
  destruct x as [sx|sx| |sx mx ex], y as [sy|sy| |sy my ey]; simpl;
    try discriminate; try reflexivity;
    try (destruct sx; discriminate); try (destruct sy; discriminate).
  - destruct sx, sy; simpl; intros; try discriminate; reflexivity.
  - destruct sx, sy; try discriminate;
      destruct (Z.compare_spec ex ey) as [->| |]; try discriminate;
      fold (Pos.compare mx my);
      destruct (Pos.compare_spec mx my) as [->| |]; try discriminate;
      intros _; now rewrite Z.compare_refl, Pos.compare_cont_refl.
Qed.

Lemma SFeqb_not_ltb (x y : spec_float) :
  SFeqb x y = true -> SFltb x y = false /\ SFltb y x = false.
Proof.
  unfold SFeqb, SFltb. intros H.
  destruct (SFcompare x y) as [[| |]|] eqn:E; try discriminate.
  rewrite (SFcompare_Eq_sym _ _ E). split; reflexivity.
Qed.


End FloatFacts.

(** ** Timestamps and counters *)

Section IntegerFacts.

(** [atoi] returns the number that is written when it fits an [int]. *)
Lemma atoi_in_range (s : string) :
  Int.in_int_range (decimal_value s) -> atoi s = decimal_value s.
Proof.
  unfold Int.in_int_range, Int.INT_MIN, Int.INT_MAX, atoi, strtol, decimal_value.
  destruct (scan_sign (skip_space s)) as [neg s1].
  destruct (scan_digits 10 s1 0 0) as [[v n] r].
  set (z := if neg then - v else v). intros H.
  unfold Int.clamp_long, Int.LONG_MIN, Int.LONG_MAX, Int.to_int.
  rewrite Z.min_r, Z.max_r by lia.
  rewrite Z.mod_small by lia. lia.
Qed.

(** Then the timestamp is the number of milliseconds divided by 1000,
    truncated. *)
Lemma timestamp_in_range (tokens : list string) :
  Int.in_int_range (decimal_value (tok tokens 1)) ->
  timestamp tokens = Z.quot (decimal_value (tok tokens 1)) 1000.
Proof. intros H. unfold timestamp, Int.div. now rewrite atoi_in_range. Qed.

Lemma num_records_update (s : climate_info) (tokens : list string) :
  num_records (update_info s tokens) = Int.ulong_add (num_records s) 1.
Proof.
  unfold update_info. destruct (FP.lgt _ _), (FP.llt _ _); reflexivity.
Qed.

Lemma num_records_fold (rest : list (list string)) (s : climate_info) :
  0 <= num_records s < Int.ULONG_MODULUS ->
  num_records (fold_left update_info rest s) =
    (num_records s + Z.of_nat (length rest)) mod Int.ULONG_MODULUS.
Proof.
  revert s. induction rest as [|t rest IH]; intros s Hs.
  - simpl. rewrite Z.add_0_r. symmetry. now apply Z.mod_small.
  - cbn [fold_left length]. rewrite IH.
    + rewrite num_records_update. unfold Int.ulong_add.
      rewrite Zplus_mod_idemp_l. f_equal. lia.
    + rewrite num_records_update. unfold Int.ulong_add.
      apply Z.mod_pos_bound. reflexivity.
Qed.

(** The count of an accumulator is one less than the number of records
    of its code. *)
Lemma num_records_accumulator_of (recs : list (list string)) (c : string) :
  In c (map rec_code recs) ->
  num_records (accumulator_of recs c) =
    (Z.of_nat (length (records_of c recs)) - 1) mod Int.ULONG_MODULUS.
Proof.
  intros H. destruct (records_of_seen recs c H) as (first & rest & E & _).
  unfold accumulator_of. rewrite E, num_records_fold.
  - f_equal. simpl num_records. simpl length. lia.
  - simpl. unfold Int.ULONG_MODULUS. lia.
Qed.

End IntegerFacts.

(** ** Order of floating-point numbers and the extrema *)

Section Extrema.







End Extrema.

(** ** Properties of the tokenizer and of a skipped line *)

(** C9.  A line with fewer than nine tab-separated fields leaves the table
    of accumulators as it is: no accumulator changes and none is created;
    the lines that follow are processed as if the line were not there.
    This holds for the buffer [fgets] fills, and for a line of the file of
    any length. *)
Theorem short_line_is_skipped (num_states : nat) (states : state_table)
    (line : string) :
  (length (fields line) < 9)%nat ->
  process_line num_states states line = states /\
  (forall before after : list string,
     analyze_lines num_states (before ++ line :: after) states =
       analyze_lines num_states (before ++ after) states) /\
  (forall before after : string,
     whole_lines before = true -> whole_lines line = true ->
     analyze_file (before ++ line ++ after) states num_states =
       analyze_file (before ++ after) states num_states).
Proof.
  intros H.
  assert (Hskip : forall st, process_line num_states st line = st).
  { intros st. rewrite process_line_parse, parse_short; [reflexivity|].
    pose proof (tokenize_length_fields 9 line). lia. }
  split; [apply Hskip|]. split.
  - intros before after. rewrite !analyze_lines_app.
    unfold analyze_lines at 1. cbn [fold_left]. now rewrite Hskip.
  - intros before after Hb Hl. apply part_of_file_is_skipped; try assumption.
    pose proof (filter_length_le nonempty (fields line)). lia.
Qed.

Lemma short_line_is_skipped_witness :
  (length (fields short_line) < 9)%nat /\
  process_line NUM_STATES ca_table short_line = ca_table /\
  analyze_file (ca_warm ++ short_line ++ ca_cold) initial_states NUM_STATES =
    analyze_file (ca_warm ++ ca_cold) initial_states NUM_STATES.
Proof.
  assert (H : (length (fields short_line) < 9)%nat) by (vm_compute; lia).
  split; [exact H|]. split.
  - exact (proj1 (short_line_is_skipped NUM_STATES ca_table short_line H)).
  - apply (proj2 (proj2 (short_line_is_skipped NUM_STATES initial_states
                           short_line H))); reflexivity.
Defined.



(** ** The accumulators of a run *)


Lemma create_state_zero (tokens : list string) : zero_initialized (create_state tokens).
Proof. repeat split. Qed.





(** ** One accumulator per code, within the capacity of the table *)









(** ** The first record of a code *)

Lemma single_record_not_folded (lines : list string) (t : list string) :
  records lines = [t] ->
  snapshot (analyze_lines NUM_STATES lines initial_states) NUM_STATES =
    [create_state t].
Proof. intros H. rewrite snapshot_lines, H. reflexivity. Qed.

Lemma two_records_one_folded (lines : list string) (t1 t2 : list string) :
  records lines = [t1; t2] -> rec_code t1 = rec_code t2 ->
  snapshot (analyze_lines NUM_STATES lines initial_states) NUM_STATES =
    [update_info (create_state t1) t2].
Proof.
  intros H E. rewrite snapshot_lines, H. unfold fold_records. cbn [fold_left].
  change (NUM_STATES - length [])%nat with 50%nat. cbn [fold_record].
  change (code (create_state t1)) with (rec_code t1). unfold streq.
  now rewrite E, String.eqb_refl.
Qed.

(** C1.  Two records of "CA", at 77.0 F and 1000000 s, then at 32.0 F and
    2000000 s (as the report prints them), with humidity 50 and 60, cloud
    cover 10 and 20, snow flags 0 and 1 and lightning flags 1 and 0: the
    program reports one record, and the values of the second record only. *)
Theorem end_to_end_example_counts_one_record :
  records (run_lines ca_warm_then_cold) = [ca_warm_tokens; ca_cold_tokens] /\
  temp_fahrenheit ca_warm_tokens = atof "76.99999999999994" /\
  temp_fahrenheit ca_cold_tokens = atof "31.999999999999943" /\
  timestamp ca_warm_tokens = 1000000 /\
  timestamp ca_cold_tokens = 2000000 /\
  run_report ca_warm_then_cold =
    [ {| r_code := "CA";
         r_num_records := 1;
         r_average_humidity := ld "60.0";
         r_average_temperature := FP.to_ldouble (temp_fahrenheit ca_cold_tokens);
         r_max_temp := FP.to_ldouble (temp_fahrenheit ca_cold_tokens);
         r_max_temp_timestamp := 2000000;
         r_min_temp := FP.to_ldouble (temp_fahrenheit ca_cold_tokens);
         r_min_temp_timestamp := 2000000;
         r_lightning_strikes := 0;
         r_snow_cover_records := 1;
         r_average_cloud_cover := ld "20.0" |} ].
Proof. repeat split; vm_compute; reflexivity. Qed.

(** C2.  After a run with a single record of "CA" the snapshot holds an
    accumulator whose count is 0, and the three averages of the report are
    0.0 / 0, not a number. *)
Theorem single_record_leaves_count_zero :
  records (run_lines ca_warm_only) = [ca_warm_tokens] /\
  map num_records (run_snapshot ca_warm_only) = [0] /\
  map r_average_humidity (run_report ca_warm_only) = [S754_nan] /\
  map r_average_temperature (run_report ca_warm_only) = [S754_nan] /\
  map r_average_cloud_cover (run_report ca_warm_only) = [S754_nan].
Proof. repeat split; vm_compute; reflexivity. Qed.

(** C5.  The temperature of the first record of a code is outside the
    extrema when it is the highest, or the lowest, of the code: after 77.0 F
    then 32.0 F the maximum is below 77.0 F, and after 32.0 F then 77.0 F
    the minimum is above 32.0 F. *)
Theorem first_record_escapes_extrema :
  records (run_lines ca_warm_then_cold) = [ca_warm_tokens; ca_cold_tokens] /\
  map (fun info => FP.lge (max_temp info) (FP.to_ldouble (temp_fahrenheit ca_warm_tokens)))
      (run_snapshot ca_warm_then_cold) = [false] /\
  records (run_lines ca_cold_then_warm) = [ca_cold_tokens; ca_warm_tokens] /\
  map (fun info => FP.lle (min_temp info) (FP.to_ldouble (temp_fahrenheit ca_cold_tokens)))
      (run_snapshot ca_cold_then_warm) = [false].
Proof. repeat split; vm_compute; reflexivity. Qed.

(** C6.  A record whose temperature equals the current maximum changes
    neither the maximum nor its timestamp, and likewise for the minimum:
    the comparisons are strict. *)
Theorem tie_keeps_first_extremum (s : climate_info) (tokens : list string) :
  (FP.leq (FP.to_ldouble (temp_fahrenheit tokens)) (max_temp s) = true ->
   max_temp (update_info s tokens) = max_temp s /\
   max_temp_timestamp (update_info s tokens) = max_temp_timestamp s) /\
  (FP.leq (FP.to_ldouble (temp_fahrenheit tokens)) (min_temp s) = true ->
   min_temp (update_info s tokens) = min_temp s /\
   min_temp_timestamp (update_info s tokens) = min_temp_timestamp s).
Proof.
  unfold FP.leq. split; intros H; apply SFeqb_not_ltb in H; destruct H as [H1 H2];
    unfold update_info, FP.lgt, FP.llt.
  - rewrite H2. destruct (SFltb _ (min_temp s)); split; reflexivity.
  - rewrite H1. destruct (SFltb (max_temp s) _); split; reflexivity.
Qed.

Lemma tie_keeps_first_extremum_witness :
  FP.leq (FP.to_ldouble (temp_fahrenheit ca_warm_later_tokens))
         (max_temp ca_folded_once) = true /\
  FP.leq (FP.to_ldouble (temp_fahrenheit ca_warm_later_tokens))
         (min_temp ca_folded_once) = true /\
  timestamp ca_warm_later_tokens = 1001000 /\
  max_temp_timestamp (update_info ca_folded_once ca_warm_later_tokens) = 1000000 /\
  min_temp_timestamp (update_info ca_folded_once ca_warm_later_tokens) = 1000000.
Proof.
  destruct (tie_keeps_first_extremum ca_folded_once ca_warm_later_tokens)
    as [Hmax Hmin].
  assert (H1 : FP.leq (FP.to_ldouble (temp_fahrenheit ca_warm_later_tokens))
                      (max_temp ca_folded_once) = true) by (vm_compute; reflexivity).
  assert (H2 : FP.leq (FP.to_ldouble (temp_fahrenheit ca_warm_later_tokens))
                      (min_temp ca_folded_once) = true) by (vm_compute; reflexivity).
  split; [exact H1|]. split; [exact H2|]. split; [vm_compute; reflexivity|].
  split.
  - rewrite (proj2 (Hmax H1)). vm_compute; reflexivity.
  - rewrite (proj2 (Hmin H2)). vm_compute; reflexivity.
Defined.

(** C7.  The timestamps of the sample in the header of [climate.c] do not
    fit an [int]: for 1430308800000 ms, which is 1430308800 s, [atoi]
    returns 84690432 and the timestamp kept with the extrema is 84690. *)
Theorem timestamp_wraps_beyond_int :
  decimal_value "1430308800000" = 1430308800000 /\
  Z.quot 1430308800000 1000 = 1430308800 /\
  atoi "1430308800000" = 84690432 /\
  map max_temp_timestamp (run_snapshot sample_run) = [84690] /\
  map min_temp_timestamp (run_snapshot sample_run) = [84690].
Proof. repeat split; vm_compute; reflexivity. Qed.


(** ** How a file is cut into lines *)

Lemma fgets_nonempty (n : nat) (c : ascii) (r : string) :
  (1 <= String.length (fst (fgets (S n) (String c r))))%nat.
Proof.
  simpl. destruct (Ascii.eqb c NL); simpl; [lia|].
  destruct (fgets n r). simpl. lia.
Qed.

Lemma concat_cons (l : string) (ls : list string) :
  String.concat EmptyString (l :: ls) = (l ++ String.concat EmptyString ls)%string.
Proof.
  destruct ls as [|l' ls]; simpl.
  - induction l as [|c l IH]; simpl; [reflexivity|now rewrite <- IH].
  - reflexivity.
Qed.

(** X1.  The buffers [fgets] fills make up the file, in order, with nothing
    lost and nothing read twice; each holds at least one character and at
    most [LINE_SIZE - 1], so a longer line is processed in several pieces. *)
Theorem file_is_cut_into_bounded_lines (file : string) :
  String.concat EmptyString (lines_of file) = file /\
  Forall (fun l => (1 <= String.length l <= LINE_SIZE - 1)%nat) (lines_of file).
Proof.
  remember (String.length file) as k eqn:Hk. revert file Hk.
  induction k as [k IH] using lt_wf_ind. intros file Hk.
  destruct file as [|c r]; [split; [reflexivity|constructor]|].
  rewrite lines_of_cons.
  pose proof (fgets_append (LINE_SIZE - 1) (String c r)) as Happ.
  pose proof (fgets_length (LINE_SIZE - 1) (String c r)) as Hlen.
  pose proof (fgets_nonempty 98 c r) as Hne.
  pose proof (fgets_rest_lt 98 c r) as Hlt.
  change (S 98) with (LINE_SIZE - 1)%nat in Hne, Hlt.
  destruct (IH (String.length (snd (fgets (LINE_SIZE - 1) (String c r)))))
    with (file := snd (fgets (LINE_SIZE - 1) (String c r))) as [Hc Hf];
    [subst k; cbn [String.length]; lia|reflexivity|].
  split.
  - rewrite concat_cons, Hc. exact Happ.
  - constructor; [lia|exact Hf].
Qed.

(** ** The tokens of a well-formed line *)












(** ** The shape of the table *)

Lemma table_lines (lines : list string) :
  analyze_lines NUM_STATES lines initial_states =
    table_of NUM_STATES (fold_records NUM_STATES (records lines) []).
Proof. rewrite initial_table. apply analyze_lines_table. simpl. lia. Qed.

Lemma run_table_records (files : list (option string)) :
  run_table files =
    table_of NUM_STATES (fold_records NUM_STATES (records (run_lines files)) []).
Proof. rewrite run_table_lines. apply table_lines. Qed.

Lemma run_snapshot_records (files : list (option string)) :
  run_snapshot files = fold_records NUM_STATES (records (run_lines files)) [].
Proof. unfold run_snapshot. rewrite run_table_lines. apply snapshot_lines. Qed.

(** X4.  After any run the table still has [NUM_STATES] entries, the
    accumulators fill it from index 0 without a gap and the other entries
    are NULL: nothing is stored outside the array, and [print_report] meets
    the accumulators before the first NULL. *)
Theorem table_is_filled_from_the_front (files : list (option string)) :
  length (run_table files) = NUM_STATES /\
  (length (run_snapshot files) <= NUM_STATES)%nat /\
  run_table files =
    map Some (run_snapshot files) ++
    repeat None (NUM_STATES - length (run_snapshot files)).
Proof.
  assert (Hle : (length (run_snapshot files) <= NUM_STATES)%nat).
  { rewrite run_snapshot_records. apply fold_records_length. simpl. lia. }
  assert (Ht : run_table files = table_of NUM_STATES (run_snapshot files)).
  { rewrite run_snapshot_records. apply run_table_records. }
  split; [|split; [exact Hle|exact Ht]].
  rewrite Ht. now apply table_of_length.
Qed.



(** ** One record, one accumulator *)





Lemma fold_record_full (accs : list climate_info) (t : list string) :
  ~ In (rec_code t) (map code accs) -> fold_record 0 accs t = accs.
Proof.
  induction accs as [|s r IH]; [reflexivity|]. simpl. intros H. unfold streq.
  destruct (String.eqb_spec (code s) (rec_code t)) as [E|_]; [tauto|].
  f_equal. apply IH. tauto.
Qed.

(** X7.  When all [NUM_STATES] entries of the table are taken, a record with
    a code that has no accumulator is dropped: the loop of [analyze_file]
    runs to its end and the table is left exactly as it was. *)
Theorem full_table_drops_new_code (lines : list string) (line : string)
    (tokens : list string) :
  parse line = Some tokens ->
  length (snapshot_codes lines) = NUM_STATES ->
  ~ In (rec_code tokens) (snapshot_codes lines) ->
  analyze_lines NUM_STATES (lines ++ [line]) initial_states =
    analyze_lines NUM_STATES lines initial_states.
Proof.
  unfold snapshot_codes. rewrite snapshot_lines, length_map. intros Hp Hfull Hnew.
  rewrite !table_lines, records_app. f_equal.
  simpl records. rewrite Hp.
  assert (E : forall recs t, fold_records NUM_STATES (recs ++ [t]) [] =
            fold_record (NUM_STATES - length (fold_records NUM_STATES recs []))
              (fold_records NUM_STATES recs []) t).
  { intros recs t. unfold fold_records. now rewrite fold_left_app. }
  rewrite E, Hfull, Nat.sub_diag. now apply fold_record_full.
Qed.

Lemma full_table_drops_new_code_witness :
  parse (line_of_code "DC") = Some (tokenize 9 (c_str (line_of_code "DC"))) /\
  length (snapshot_codes (map line_of_code (firstn 50 codes_51))) = NUM_STATES /\
  analyze_lines NUM_STATES (map line_of_code (firstn 50 codes_51) ++ [line_of_code "DC"])
    initial_states =
  analyze_lines NUM_STATES (map line_of_code (firstn 50 codes_51)) initial_states.
Proof.
  assert (H1 : parse (line_of_code "DC") =
               Some (tokenize 9 (c_str (line_of_code "DC")))) by reflexivity.
  assert (H2 : length (snapshot_codes (map line_of_code (firstn 50 codes_51)))
               = NUM_STATES) by (vm_compute; reflexivity).
  assert (H3 : ~ In (rec_code (tokenize 9 (c_str (line_of_code "DC"))))
                 (snapshot_codes (map line_of_code (firstn 50 codes_51)))).
  { vm_compute. intros H.
    repeat (destruct H as [H|H]; [discriminate|]). exact H. }
  split; [exact H1|]. split; [exact H2|].
  exact (full_table_drops_new_code _ _ _ H1 H2 H3).
Defined.

(** ** Counts and totals *)





(** ** Extrema of the folded records *)



Lemma max_pair_update (s : climate_info) (t : list string) :
  (max_temp (update_info s t), max_temp_timestamp (update_info s t)) =
    if FP.lgt (FP.to_ldouble (temp_fahrenheit t)) (max_temp s)
    then (FP.to_ldouble (temp_fahrenheit t), timestamp t)
    else (max_temp s, max_temp_timestamp s).
Proof. unfold update_info. destruct (FP.lgt _ _), (FP.llt _ _); reflexivity. Qed.

Lemma min_pair_update (s : climate_info) (t : list string) :
  (min_temp (update_info s t), min_temp_timestamp (update_info s t)) =
    if FP.llt (FP.to_ldouble (temp_fahrenheit t)) (min_temp s)
    then (FP.to_ldouble (temp_fahrenheit t), timestamp t)
    else (min_temp s, min_temp_timestamp s).
Proof. unfold update_info. destruct (FP.lgt _ _), (FP.llt _ _); reflexivity. Qed.




(** ** A temperature that is not a number *)

Lemma SFltb_nan_r (x : spec_float) : SFltb x S754_nan = false.
Proof. destruct x; reflexivity. Qed.

Lemma SFadd_nan_r (x : spec_float) : FP.ladd x S754_nan = S754_nan.
Proof. destruct x; reflexivity. Qed.

Lemma temperature_sum_update (s : climate_info) (t : list string) :
  temperature_sum (update_info s t) =
    FP.ladd (temperature_sum s)
            (FP.to_ldouble (kelvin_to_fahrenheit (atof (tok t 8)))).
Proof. unfold update_info. destruct (FP.lgt _ _), (FP.llt _ _); reflexivity. Qed.

(** X11.  A record whose temperature field reads as NaN is counted, but it
    changes neither extremum nor their timestamps, since every comparison
    with NaN is false; from then on the temperature sum of the accumulator
    is NaN. *)
Theorem nan_temperature_is_counted_not_compared (s : climate_info)
    (tokens : list string) :
  atof (tok tokens 8) = S754_nan ->
  num_records (update_info s tokens) = Int.ulong_add (num_records s) 1 /\
  max_temp (update_info s tokens) = max_temp s /\
  max_temp_timestamp (update_info s tokens) = max_temp_timestamp s /\
  min_temp (update_info s tokens) = min_temp s /\
  min_temp_timestamp (update_info s tokens) = min_temp_timestamp s /\
  temperature_sum (update_info s tokens) = S754_nan /\
  forall rest, temperature_sum (fold_left update_info rest (update_info s tokens))
               = S754_nan.
Proof.
  intros H.
  assert (Ht : FP.to_ldouble (temp_fahrenheit tokens) = S754_nan).
  { unfold temp_fahrenheit. rewrite H. reflexivity. }
  pose proof (max_pair_update s tokens) as Hmax.
  pose proof (min_pair_update s tokens) as Hmin.
  rewrite Ht in Hmax, Hmin. unfold FP.lgt, FP.llt in Hmax, Hmin.
  rewrite SFltb_nan_r in Hmax. change (SFltb S754_nan (min_temp s)) with false in Hmin.
  injection Hmax as Hmax1 Hmax2. injection Hmin as Hmin1 Hmin2.
  assert (Hsum : temperature_sum (update_info s tokens) = S754_nan).
  { rewrite temperature_sum_update. fold (temp_fahrenheit tokens).
    rewrite Ht. apply SFadd_nan_r. }
  split; [apply num_records_update|].
  repeat (split; [assumption|]).
  intros rest. revert Hsum. generalize (update_info s tokens).
  induction rest as [|t rest IH]; intros c Hc; [exact Hc|].
  cbn [fold_left]. apply IH. rewrite temperature_sum_update, Hc. reflexivity.
Qed.

Lemma nan_temperature_is_counted_not_compared_witness :
  atof (tok ca_nan_tokens 8) = S754_nan /\
  num_records (update_info ca_folded_once ca_nan_tokens) = 2 /\
  max_temp_timestamp (update_info ca_folded_once ca_nan_tokens) = 1000000 /\
  temperature_sum (update_info ca_folded_once ca_nan_tokens) = S754_nan.
Proof.
  assert (H : atof (tok ca_nan_tokens 8) = S754_nan) by reflexivity.
  destruct (nan_temperature_is_counted_not_compared ca_folded_once ca_nan_tokens H)
    as (Hn & _ & Hts & _ & _ & Hsum & _).
  split; [exact H|]. split; [rewrite Hn; reflexivity|].
  split; [rewrite Hts; reflexivity|exact Hsum].
Defined.

(** ** Timestamps that fit an [int] *)

(** X12.  When the number of milliseconds written in the second token fits
    an [int], [atoi] returns it and the timestamp of the record is this
    number divided by 1000 with the quotient truncated toward zero. *)
Theorem timestamp_of_int_milliseconds (tokens : list string) :
  Int.in_int_range (decimal_value (tok tokens 1)) ->
  atoi (tok tokens 1) = decimal_value (tok tokens 1) /\
  timestamp tokens = Z.quot (decimal_value (tok tokens 1)) 1000.
Proof.
  intros H. split; [now apply atoi_in_range|now apply timestamp_in_range].
Qed.

Lemma timestamp_of_int_milliseconds_witness :
  Int.in_int_range (decimal_value (tok ca_early_tokens 1)) /\
  decimal_value (tok ca_early_tokens 1) = -1500 /\
  timestamp ca_early_tokens = -1.
Proof.
  assert (H : Int.in_int_range (decimal_value (tok ca_early_tokens 1))).
  { vm_compute. split; discriminate. }
  destruct (timestamp_of_int_milliseconds ca_early_tokens H) as [_ Ht].
  split; [exact H|]. split; [reflexivity|]. rewrite Ht. reflexivity.
Defined.

(** ** Files of a run *)



(** ** The first line of the report *)

Lemma states_found_found (states : state_table) :
  states_found states =
    (String.concat EmptyString (map (fun info => (" " ++ code info)%string)
                                  (found states)),
     length (found states)).
Proof.
  induction states as [|[info|] r IH]; [reflexivity| |exact IH].
  cbn [states_found found map length]. rewrite IH, concat_cons. reflexivity.
Qed.

Lemma first_seen_nil (l : list string) : first_seen l = [] -> l = [].
Proof. destruct l; [reflexivity|discriminate]. Qed.

(** X14.  The line "States found:" lists the codes of the blocks that
    follow, in the same order, and it reads "None" exactly when the run
    read no record, in which case no block follows. *)
Theorem header_lists_the_blocks (files : list (option string)) :
  print_states_found (run_table files) NUM_STATES =
    ("States found:" ++
     String.concat EmptyString
       (map (fun c => (" " ++ c)%string) (map r_code (run_report files))) ++
     match map r_code (run_report files) with
     | [] => " None" ++ String NL EmptyString
     | _ => String NL EmptyString
     end)%string /\
  (run_report files = [] <-> records (run_lines files) = []).
Proof.
  split.
  - unfold print_states_found, run_report, print_report, snapshot.
    rewrite states_found_found. rewrite !map_map. cbn [r_code report_of].
    destruct (found (firstn NUM_STATES (run_table files))); reflexivity.
  - unfold run_report, print_report. fold (run_snapshot files).
    rewrite run_snapshot_closed_form. unfold closed_form. split.
    + intros H. apply map_eq_nil in H. apply map_eq_nil in H.
      destruct (first_seen (map rec_code (records (run_lines files)))) eqn:E.
      * apply first_seen_nil in E. now apply map_eq_nil in E.
      * discriminate.
    + intros ->. reflexivity.
Qed.

(** ** State codes *)





(** ** Lines shorter than the buffer *)

Lemma fgets_whole_line (n : nat) (body rest : string) :
  no_newline body = true -> (String.length body < n)%nat ->
  fgets n (body ++ String NL rest) = ((body ++ String NL EmptyString)%string, rest).
Proof.
  revert n. induction body as [|c r IH]; intros n Hb Hn.
  - destruct n; [simpl in Hn; lia|]. reflexivity.
  - destruct n; [simpl in Hn; lia|]. simpl in Hb, Hn.
    apply andb_true_iff in Hb. destruct Hb as [Hc Hr].
    apply negb_true_iff in Hc. simpl. rewrite Hc.
    rewrite IH by (assumption || lia). reflexivity.
Qed.

(** X16.  A line of fewer than [LINE_SIZE - 1] characters before its newline
    is read in one piece, with its newline, whatever follows it in the
    file. *)
Theorem short_line_is_read_whole (body rest : string) :
  no_newline body = true -> (String.length body < LINE_SIZE - 1)%nat ->
  lines_of (body ++ String NL rest) =
    (body ++ String NL EmptyString)%string :: lines_of rest.
Proof.
  intros Hb Hn.
  pose proof (fgets_whole_line (LINE_SIZE - 1) body rest Hb Hn) as E.
  destruct body as [|c r].
  - change (EmptyString ++ String NL rest)%string with (String NL rest) in *.
    rewrite lines_of_cons, E. reflexivity.
  - change (String c r ++ String NL rest)%string
      with (String c (r ++ String NL rest)%string) in *.
    rewrite lines_of_cons, E. reflexivity.
Qed.

Lemma short_line_is_read_whole_witness :
  no_newline sample_no_newline = true /\
  (String.length sample_no_newline < LINE_SIZE - 1)%nat /\
  lines_of (sample_no_newline ++ String NL sample_line_2) =
    sample_line_1 :: lines_of sample_line_2 /\
  records (lines_of (sample_no_newline ++ String NL sample_line_2)) =
    line_tokens sample_fields :: records (lines_of sample_line_2).
Proof.
  assert (H1 : no_newline sample_no_newline = true) by reflexivity.
  assert (H2 : (String.length sample_no_newline < LINE_SIZE - 1)%nat)
    by (vm_compute; lia).
  pose proof (short_line_is_read_whole sample_no_newline sample_line_2 H1 H2) as E.
  split; [exact H1|]. split; [exact H2|]. split; [exact E|].
  rewrite E. reflexivity.
Defined.

(** ** Sums and averages *)





(** ** The newline of the ninth token *)

Lemma scan_digits_nl (base : Z) (s : string) (acc n : Z) :
  scan_digits base (s ++ String NL EmptyString) acc n =
    let '(a, k, r) := scan_digits base s acc n in
    (a, k, (r ++ String NL EmptyString)%string).
Proof.
  revert acc n. induction s as [|c r IH]; intros acc n; [reflexivity|].
  cbn [append scan_digits]. destruct (digit_value base c); [apply IH|reflexivity].
Qed.

Lemma scan_sign_nl (s : string) :
  scan_sign (s ++ String NL EmptyString) =
    (fst (scan_sign s), (snd (scan_sign s) ++ String NL EmptyString)%string).
Proof.
  destruct s as [|c r]; [reflexivity|].
  destruct c as [[] [] [] [] [] [] [] []]; reflexivity.
Qed.

Lemma skip_space_nl (s : string) :
  skip_space (s ++ String NL EmptyString) =
    match skip_space s with
    | EmptyString => EmptyString
    | r => (r ++ String NL EmptyString)%string
    end.
Proof.
  induction s as [|c r IH]; [reflexivity|].
  cbn [append skip_space]. destruct (isspace c); [exact IH|reflexivity].
Qed.

Lemma has_prefix_ci_nl (p s : string) :
  no_newline p = true ->
  has_prefix_ci p (s ++ String NL EmptyString) = has_prefix_ci p s.
Proof.
  revert s. induction p as [|a p IH]; intros s Hp; [destruct s; reflexivity|].
  simpl in Hp. apply andb_true_iff in Hp. destruct Hp as [Ha Hp].
  apply negb_true_iff in Ha.
  destruct s as [|b s]; cbn [append has_prefix_ci].
  - change (lower NL) with NL. now rewrite Ha.
  - now rewrite IH.
Qed.

Lemma scan_exponent_nl (marker : ascii) (s : string) :
  Ascii.eqb NL marker = false ->
  scan_exponent marker (s ++ String NL EmptyString) = scan_exponent marker s.
Proof.
  intros Hm. destruct s as [|c r]; cbn [append scan_exponent].
  - change (lower NL) with NL. now rewrite Hm.
  - destruct (Ascii.eqb (lower c) marker); [|reflexivity].
    rewrite scan_sign_nl. destruct (scan_sign r) as [neg r1]. cbn [fst snd].
    rewrite scan_digits_nl. destruct (scan_digits 10 r1 0 0) as [[v n] r2].
    reflexivity.
Qed.

Lemma scan_mantissa_nl (base : Z) (s : string) :
  scan_mantissa base (s ++ String NL EmptyString) =
    let '(m, f, n, r) := scan_mantissa base s in
    (m, f, n, (r ++ String NL EmptyString)%string).
Proof.
  unfold scan_mantissa. rewrite scan_digits_nl.
  destruct (scan_digits base s 0 0) as [[m1 n1] r1].
  destruct r1 as [|c r2]; [reflexivity|].
  destruct c as [[] [] [] [] [] [] [] []]; try reflexivity.
  cbn [append]. rewrite scan_digits_nl.
  destruct (scan_digits base r2 m1 0) as [[m2 n2] r3].
  destruct (0 <? n1 + n2); reflexivity.
Qed.

Lemma strtod_hex_nl (neg : bool) (s : string) :
  strtod_hex neg (s ++ String NL EmptyString) = strtod_hex neg s.
Proof.
  destruct s as [|c [|x r]].
  - reflexivity.
  - destruct c as [[] [] [] [] [] [] [] []]; reflexivity.
  - destruct c as [[] [] [] [] [] [] [] []]; try reflexivity.
    cbn [append strtod_hex]. destruct (Ascii.eqb (lower x) "x"); [|reflexivity].
    rewrite scan_mantissa_nl.
    destruct (scan_mantissa 16 r) as [[[m f] n] r1].
    rewrite scan_exponent_nl by reflexivity. reflexivity.
Qed.

Lemma strtod_unsigned_nl (neg : bool) (s : string) :
  strtod_unsigned neg (s ++ String NL EmptyString) = strtod_unsigned neg s.
Proof.
  unfold strtod_unsigned.
  rewrite !has_prefix_ci_nl by reflexivity. rewrite strtod_hex_nl.
  rewrite scan_mantissa_nl. destruct (scan_mantissa 10 s) as [[[m f] n] r1].
  rewrite scan_exponent_nl by reflexivity. reflexivity.
Qed.

Lemma strtod_unfold (s : string) :
  strtod s =
    strtod_unsigned (fst (scan_sign (skip_space s))) (snd (scan_sign (skip_space s))).
Proof.
  unfold strtod. destruct (scan_sign (skip_space s)) as [neg s1]. reflexivity.
Qed.

Lemma atof_nl (s : string) : atof (s ++ String NL EmptyString) = atof s.
Proof.
  unfold atof. rewrite !strtod_unfold, skip_space_nl.
  destruct (skip_space s) as [|c r] eqn:E; [reflexivity|].
  rewrite scan_sign_nl. cbn [fst snd]. apply strtod_unsigned_nl.
Qed.

(** X18.  The newline that stays on the ninth token does not change the
    temperature: [atof] reads the same number with and without it. *)
Theorem newline_does_not_change_temperature (tokens : list string)
    (field : string) :
  tok tokens 8 = (field ++ String NL EmptyString)%string ->
  atof (tok tokens 8) = atof field /\
  temp_fahrenheit tokens = kelvin_to_fahrenheit (atof field).
Proof.
  intros H. unfold temp_fahrenheit. rewrite H, atof_nl. split; reflexivity.
Qed.

Lemma newline_does_not_change_temperature_witness :
  tok ca_warm_tokens 8 = ("298.15" ++ String NL EmptyString)%string /\
  temp_fahrenheit ca_warm_tokens = kelvin_to_fahrenheit (atof "298.15").
Proof.
  assert (H : tok ca_warm_tokens 8 = ("298.15" ++ String NL EmptyString)%string)
    by reflexivity.
  split; [exact H|].
  exact (proj2 (newline_does_not_change_temperature ca_warm_tokens "298.15" H)).
Defined.
